(** * Car-scene acoustics: loudness scaling, spatialisation, mixing and
      signal I/O

    A shallow embedding of [recipes/cad1/task2/baseline/car_scene_acoustics.py]
    (class [CarSceneAcoustics]) and of the signal I/O contract exercised by
    [tests/utils/test_file_io.py].

    - Python exceptions are an error monad ([result]).
    - numpy arrays are the 1-D and 2-D [ndarray]s the code handles, with
      their [shape] tuple, integer indexing, [.T], slicing and broadcasting
      addition.
    - Sample arithmetic (IEEE doubles in the program) is kept abstract in a
      type class, so every statement holds for any arithmetic; the concrete
      evaluations run on reduced rationals.
    - The external capabilities (scipy, pyloudnorm, the car-noise generator,
      NALR, the compressor) are parameters of the development. *)

From stdpp Require Import base option list gmap strings.
From Stdlib Require Import ZArith QArith Qround Qabs Qreduction SpecFloat Lia Lqa.

Open Scope Z_scope.
Open Scope nat_scope.

(** ** Python runtime: exceptions and the error monad *)

Module Py.

Inductive exn : Type :=
| AttributeError
| IndexError
| KeyError
| ValueError
| OSError.

Inductive result (T : Type) : Type :=
| Ok (v : T)
| Raise (e : exn).
Arguments Ok {T} v.
Arguments Raise {T} e.

Definition bind {T U : Type} (m : result T) (k : T -> result U) : result U :=
  match m with
  | Ok v => k v
  | Raise e => Raise e
  end.

End Py.
Export Py.

Notation "'try!' x := m 'in' k" := (Py.bind m (fun x => k))
  (at level 10, x name, m at level 100, k at level 200, only parsing).

(** ** Sample arithmetic *)

(** The program computes on IEEE doubles.  Only the operations the code
    performs are required; no algebraic law is assumed. *)
Class Arith (A : Type) : Type := {
  zero : A;
  one : A;
  add : A -> A -> A;
  mul : A -> A -> A;
  of_int : Z -> A;
  (** the literal [0.2], default of [extend_noise] *)
  lit_0_2 : A;
}.

(** Reduced rationals, used for the concrete evaluations. *)
#[global] Instance Arith_Q : Arith Q := {|
  zero := 0%Q;
  one := 1%Q;
  add := fun x y => Qred (x + y);
  mul := fun x y => Qred (x * y);
  of_int := inject_Z;
  lit_0_2 := (1 # 5)%Q;
|}.

(** ** numpy arrays *)

Module Np.
Section Ndarray.
Context {A : Type}.

(** A 1-D array, or a 2-D array stored by rows together with its second
    dimension (so that shapes [(0, c)] and [(r, 0)] are distinct). *)
Inductive ndarray : Type :=
| Nd1 (data : list A)
| Nd2 (ncols : nat) (rows : list (list A)).

Definition wf (a : ndarray) : Prop :=
  match a with
  | Nd1 _ => True
  | Nd2 c rs => Forall (fun r => length r = c) rs
  end.

(** [a.shape] *)
Definition shape (a : ndarray) : list nat :=
  match a with
  | Nd1 d => [length d]
  | Nd2 c rs => [length rs; c]
  end.

(** [t[i]] on a tuple: [IndexError] when out of range. *)
Definition tuple_get (t : list nat) (i : nat) : result nat :=
  match t !! i with
  | Some n => Ok n
  | None => Raise IndexError
  end.

(** [x.shape] where [x] may be [None]: [None] has no attribute [shape]. *)
Definition attr_shape (x : option ndarray) : result (list nat) :=
  match x with
  | Some a => Ok (shape a)
  | None => Raise AttributeError
  end.

(** Column [j] of a list of rows. *)
Definition column (rs : list (list A)) (j : nat) : list A :=
  omap (fun r => r !! j) rs.

(** [a.T]: a 1-D array is its own transpose. *)
Definition transpose (a : ndarray) : ndarray :=
  match a with
  | Nd1 d => Nd1 d
  | Nd2 c rs => Nd2 (length rs) (column rs <$> seq 0 c)
  end.

(** [a[i, :]] *)
Definition row (a : ndarray) (i : nat) : result (list A) :=
  match a with
  | Nd1 _ => Raise IndexError
  | Nd2 _ rs =>
      match rs !! i with
      | Some r => Ok r
      | None => Raise IndexError
      end
  end.

(** [a[:, :m]] *)
Definition take_cols (a : ndarray) (m : nat) : result ndarray :=
  match a with
  | Nd1 _ => Raise IndexError
  | Nd2 c rs => Ok (Nd2 (min m c) (take m <$> rs))
  end.

(** [a[i][j]] on a 2-D array, [None] when out of range. *)
Definition get2 (a : ndarray) (i j : nat) : option A :=
  match a with
  | Nd1 _ => None
  | Nd2 _ rs => r ← rs !! i; r !! j
  end.

(** Broadcasting of one dimension. *)
Definition broadcast_dim (m n : nat) : result nat :=
  if Nat.eqb m n then Ok m
  else if Nat.eqb m 1 then Ok n
  else if Nat.eqb n 1 then Ok m
  else Raise ValueError.

(** Index into a dimension of extent [d] when the result has index [i]:
    a dimension of extent 1 is stretched. *)
Definition bidx (d i : nat) : nat := if Nat.eqb d 1 then 0 else i.

(** [np.stack([u, v], axis=0)] on two 1-D arrays. *)
Definition stack2 (u v : list A) : result ndarray :=
  if Nat.eqb (length u) (length v) then Ok (Nd2 (length u) [u; v])
  else Raise ValueError.

Context `{Arith A}.

(** [u += v] on 1-D arrays: [v] is broadcast to the shape of [u], which
    the in-place addition cannot change. *)
Definition iadd1 (u v : list A) : result (list A) :=
  if Nat.eqb (length v) (length u) || Nat.eqb (length v) 1 then
    Ok (omap (fun i =>
                x ← u !! i;
                y ← v !! bidx (length v) i;
                Some (add x y))
             (seq 0 (length u)))
  else Raise ValueError.

(** [a + b] on 2-D arrays, with broadcasting on both axes.  Only 2-D
    operands reach an addition in the program. *)
Definition add2 (a b : ndarray) : result ndarray :=
  match a, b with
  | Nd2 ca ra, Nd2 cb rb =>
      try! c := broadcast_dim ca cb in
      try! r := broadcast_dim (length ra) (length rb) in
      Ok (Nd2 c
            ((fun i =>
                omap (fun j =>
                        x ← get2 a (bidx (length ra) i) (bidx ca j);
                        y ← get2 b (bidx (length rb) i) (bidx cb j);
                        Some (add x y))
                     (seq 0 c))
               <$> seq 0 r))
  | _, _ => Raise ValueError
  end.

(** [g * a] for a scalar [g]. *)
Definition scale (g : A) (a : ndarray) : ndarray :=
  match a with
  | Nd1 d => Nd1 (mul g <$> d)
  | Nd2 c rs => Nd2 c (fmap (M:=list) (mul g) <$> rs)
  end.

End Ndarray.
Arguments ndarray A : clear implicits.
End Np.
Export Np.

(** ** scipy: [lfilter(b, 1, x)] and [wavfile.read] *)

Module Scipy.
Section Lfilter.
Context {A : Type} `{Arith A}.

(** Tap [k] of output sample [n]: [b[k] * x[n - k]], when both exist. *)
Definition tap (b x : list A) (n k : nat) : option A :=
  bk ← b !! k; xnk ← x !! (n - k); Some (mul bk xnk).

(** Output sample [n] of the causal FIR filter with numerator [b] and
    denominator [1]: the sum of [b[k] * x[n - k]] over [0 <= k <= n]. *)
Definition fir_sample (b x : list A) (n : nat) : A :=
  foldr add zero (omap (tap b x n) (seq 0 (S n))).

(** The filtered sequence: as many output samples as input samples. *)
Definition fir (b x : list A) : list A :=
  fir_sample b x <$> seq 0 (length x).

(** [lfilter(b, 1, x)] along a 1-D [x]: the filter runs as a convolution,
    which rejects an empty numerator and an empty input with
    [ValueError]. *)
Definition lfilter (b x : list A) : result (list A) :=
  match b, x with
  | [], _ => Raise ValueError
  | _, [] => Raise ValueError
  | _, _ => Ok (fir b x)
  end.

End Lfilter.
End Scipy.
Export Scipy.

(** ** External collaborators of the composer *)

(** What the class imports: the NALR enhancer, the compressor, the car-noise
    generator, the pyloudnorm meter and the WAV reader.  Each call may
    raise. *)
Class Collaborators (A : Type) : Type := {
  Config : Type;
  NoiseParameters : Type;
  NALR : Type;
  Compressor : Type;
  CarNoiseSignalGenerator : Type;
  Meter : Type;
  (** [wavfile.read(path)[1]]: the samples of an impulse response *)
  wavfile_read : string -> result (list A);
  (** the constructors of the enhancer and of the compressor, applied to
      their keyword configuration *)
  NALR_new : Config -> result NALR;
  Compressor_new : Config -> result Compressor;
  (** [CarNoiseSignalGenerator(duration_secs=.., sample_rate=..)] *)
  CarNoiseSignalGenerator_new : A -> Z -> result CarNoiseSignalGenerator;
  (** [pyln.Meter(rate)] *)
  Meter_new : Z -> result Meter;
  (** [enhancer.build(audiogram, center_frequencies)[0]] *)
  nalr_build : NALR -> list A -> list A -> result (list A);
  (** [enhancer.apply(fir, signal)] *)
  nalr_apply : NALR -> list A -> ndarray A -> result (ndarray A);
  (** [compressor.process(signal)[0]] *)
  compressor_process : Compressor -> ndarray A -> result (ndarray A);
  (** [carnoise.generate_car_noise(noise_parameters=..,
      number_noise_sources=.., commonness_factor=..)] *)
  generate_car_noise :
    CarNoiseSignalGenerator -> NoiseParameters -> Z -> Z -> result (ndarray A);
  (** [meter.integrated_loudness(data)] *)
  integrated_loudness : Meter -> ndarray A -> result A;
  (** the gain [10 ** ((target - input) / 20)] that
      [pyln.normalize.loudness(data, input, target)] multiplies [data] by *)
  loudness_gain : A -> A -> A;
}.

(** [pyln.normalize.loudness(data, input_loudness, target_loudness)] *)
Definition normalize_loudness {A : Type} `{Arith A} `{Collaborators A}
    (data : ndarray A) (input_loudness target_loudness : A) : ndarray A :=
  scale (loudness_gain input_loudness target_loudness) data.

(** ** The class [CarSceneAcoustics] *)

Module CarSceneAcoustics.

(** [Path(a) / b] *)
Definition path_join (a b : string) : string := a +:+ "/" +:+ b.

(** The class constant [ANECHOIC_HRTF], in insertion order. *)
Definition ANECHOIC_HRTF : list (string * string) :=
  [ ("000_left", "HR36_LSP01_CH1_Left.wav");
    ("000_right", "HR36_LSP01_CH1_Right.wav");
    ("m90_left", "HR0_LSP01_CH1_Left.wav");
    ("m90_right", "HR0_LSP01_CH1_Right.wav");
    ("p90_left", "HR72_LSP01_CH1_Left.wav");
    ("p90_right", "HR72_LSP01_CH1_Right.wav") ].

(** [d[key]] on a dict: [KeyError] when absent. *)
Definition dict_get {V : Type} (d : gmap string V) (key : string) : result V :=
  match d !! key with
  | Some v => Ok v
  | None => Raise KeyError
  end.

Section Composer.
Context {A : Type} `{Arith A} `{Collaborators A}.

(** The instance attributes. *)
Record t : Type := mk {
  track_duration : A;
  sample_rate : Z;
  hrtf_dir : string;
  hrir_values : gmap string (list A);
  enhancer : NALR;
  compressor : Compressor;
  carnoise : CarNoiseSignalGenerator;
  loudness_meter : Meter;
}.

(** The dict holds impulse response [h] under [key]. *)
Definition preloaded (self : t) (key : string) (h : list A) : Prop :=
  hrir_values self !! key = Some h.

Definition set_hrir_values (self : t) (d : gmap string (list A)) : t :=
  mk (track_duration self) (sample_rate self) (hrtf_dir self) d
     (enhancer self) (compressor self) (carnoise self) (loudness_meter self).

(** The loop of [preload_anechoic_hrtf]: the dict filled so far is kept
    when a read raises. *)
Fixpoint preload_loop (dir : string) (items : list (string * string))
    (d : gmap string (list A)) : gmap string (list A) * result unit :=
  match items with
  | [] => (d, Ok tt)
  | (key, item) :: rest =>
      match wavfile_read (path_join dir item) with
      | Ok v => preload_loop dir rest (<[key := v]> d)
      | Raise e => (d, Raise e)
      end
  end.

Definition anechoic_dir (hrtf_dir : string) : string :=
  path_join (path_join hrtf_dir "Anechoic") "audio".

(** [self.preload_anechoic_hrtf(hrtf_dir)]: the instance afterwards and
    the outcome. *)
Definition preload_anechoic_hrtf (self : t) (hrtf_dir : string)
    : t * result unit :=
  let '(d, r) := preload_loop (anechoic_dir hrtf_dir) ANECHOIC_HRTF ∅ in
  (set_hrir_values self d, r).

(** [CarSceneAcoustics(track_duration, sample_rate, hrtf_dir, config_nalr,
    config_compressor, extend_noise)] *)
Definition __init__ (track_duration : Z) (sample_rate : Z)
    (hrtf_dir : string) (config_nalr config_compressor : Config)
    (extend_noise : A) : result t :=
  let self_track_duration := mul (of_int track_duration) (add one extend_noise) in
  let '(d, r) := preload_loop (anechoic_dir hrtf_dir) ANECHOIC_HRTF ∅ in
  try! _ := r in
  try! enh := NALR_new config_nalr in
  try! cmp := Compressor_new config_compressor in
  try! gen := CarNoiseSignalGenerator_new self_track_duration sample_rate in
  try! mtr := Meter_new sample_rate in
  Ok (mk self_track_duration sample_rate hrtf_dir d enh cmp gen mtr).

(** [extend_noise] defaults to [0.2]. *)
Definition default_extend_noise : A := lit_0_2.

Definition apply_hearing_aid (self : t) (signal : ndarray A)
    (audiogram center_frequencies : list A) : result (ndarray A) :=
  try! nalr_fir := nalr_build (enhancer self) audiogram center_frequencies in
  try! signal := nalr_apply (enhancer self) nalr_fir signal in
  try! signal := compressor_process (compressor self) signal in
  Ok signal.

Definition add_anechoic_hrtf (self : t) (noise_signal : ndarray A)
    : result (ndarray A) :=
  (* Engine first *)
  try! h := dict_get (hrir_values self) "000_left" in
  try! x := row noise_signal 0 in
  try! out_left := lfilter h x in
  try! h := dict_get (hrir_values self) "000_right" in
  try! x := row noise_signal 0 in
  try! our_right := lfilter h x in
  (* noise processing hardwired for 2 noises *)
  try! h := dict_get (hrir_values self) "m90_left" in
  try! x := row noise_signal 1 in
  try! y := lfilter h x in
  try! out_left := iadd1 out_left y in
  try! h := dict_get (hrir_values self) "m90_right" in
  try! x := row noise_signal 1 in
  try! y := lfilter h x in
  try! our_right := iadd1 our_right y in
  (* swap HRIR so this noise is on the other side *)
  try! h := dict_get (hrir_values self) "p90_left" in
  try! x := row noise_signal 2 in
  try! y := lfilter h x in
  try! out_left := iadd1 out_left y in
  try! h := dict_get (hrir_values self) "p90_right" in
  try! x := row noise_signal 2 in
  try! y := lfilter h x in
  try! our_right := iadd1 our_right y in
  stack2 out_left our_right.

Definition get_car_noise (self : t) (car_noise_params : NoiseParameters)
    : result (ndarray A) :=
  generate_car_noise (carnoise self) car_noise_params 2%Z 0%Z.

Definition car_hrtf_path (self : t) : string :=
  path_join (path_join (hrtf_dir self) "Car") "audio".

(** [wavfile.read(car_hrtf_path / f"{hrir[key]}.wav")[1]] *)
Definition read_car_hrir (self : t) (hrir : gmap string string)
    (key : string) : result (list A) :=
  try! name := dict_get hrir key in
  wavfile_read (path_join (car_hrtf_path self) (name +:+ ".wav")).

Definition add_car_hrtf (self : t) (signal : ndarray A)
    (hrir : gmap string string) : result (ndarray A) :=
  try! hr_ls03_ch1_left := read_car_hrir self hrir "LSP03_CH1_Left" in
  try! hr_ls03_ch1_right := read_car_hrir self hrir "LSP03_CH1_Right" in
  try! hr_ls04_ch1_left := read_car_hrir self hrir "LSP04_CH1_Left" in
  try! hr_ls04_ch1_right := read_car_hrir self hrir "LSP04_CH1_Right" in
  (* Left Speaker (LS03) *)
  try! x := row signal 0 in
  try! out_left := lfilter hr_ls03_ch1_left x in
  try! x := row signal 0 in
  try! out_right := lfilter hr_ls03_ch1_right x in
  (* Right Speaker (LS04) *)
  try! x := row signal 1 in
  try! y := lfilter hr_ls04_ch1_left x in
  try! out_left := iadd1 out_left y in
  try! x := row signal 1 in
  try! y := lfilter hr_ls04_ch1_right x in
  try! out_right := iadd1 out_right y in
  stack2 out_left out_right.

(** The orientation heuristic: [x.T] when [x.shape[0] < x.shape[1]]. *)
Definition orient (shp : list nat) (x : ndarray A) : result (ndarray A) :=
  try! d0 := tuple_get shp 0 in
  try! d1 := tuple_get shp 1 in
  Ok (if Nat.ltb d0 d1 then transpose x else x).

Definition scale_signal_to_snr (self : t) (signal : ndarray A)
    (reference_signal : option (ndarray A)) (snr : A) : result (ndarray A) :=
  (* Ensure channels are in the correct dimension *)
  try! ref_shape := attr_shape reference_signal in
  try! reference_signal :=
    match reference_signal with
    | Some r => try! r := orient ref_shape r in Ok (Some r)
    | None => Ok None
    end in
  try! signal := orient (shape signal) signal in
  try! ref_signal_lufs :=
    match reference_signal with
    | None => Ok zero
    | Some r => integrated_loudness (loudness_meter self) r
    end in
  try! signal_lufs := integrated_loudness (loudness_meter self) signal in
  let target_lufs := add ref_signal_lufs snr in
  let normalised_signal := normalize_loudness signal signal_lufs target_lufs in
  (* return to original shape *)
  Ok (transpose normalised_signal).

(** [snr] defaults to [0], [reference_signal] to [None]. *)
Definition default_snr : A := of_int 0.

Definition add_two_signals (signal1 signal2 : ndarray A)
    : result (ndarray A) :=
  try! n1 := tuple_get (shape signal1) 1 in
  try! n2 := tuple_get (shape signal2) 1 in
  let min_length := min n1 n2 in
  try! s1 := take_cols signal1 min_length in
  try! s2 := take_cols signal2 min_length in
  add2 s1 s2.

End Composer.
End CarSceneAcoustics.

(** ** The public interface as a transition system on the instance *)

Module Lifetime.
Import CarSceneAcoustics.
Section Calls.
Context {A : Type} `{Arith A} `{Collaborators A}.

(** One call of a public method, with its arguments. *)
Inductive call : Type :=
| Call_preload_anechoic_hrtf (hrtf_dir : string)
| Call_apply_hearing_aid (signal : ndarray A) (audiogram center_frequencies : list A)
| Call_add_anechoic_hrtf (noise_signal : ndarray A)
| Call_get_car_noise (car_noise_params : NoiseParameters)
| Call_add_car_hrtf (signal : ndarray A) (hrir : gmap string string)
| Call_scale_signal_to_snr (signal : ndarray A)
    (reference_signal : option (ndarray A)) (snr : A)
| Call_add_two_signals (signal1 signal2 : ndarray A).

(** The instance after the call and what the call returned ([None] for a
    method without return value). *)
Definition invoke (self : t) (c : call) : t * result (option (ndarray A)) :=
  match c with
  | Call_preload_anechoic_hrtf dir =>
      let '(self', r) := preload_anechoic_hrtf self dir in
      (self', try! _ := r in Ok None)
  | Call_apply_hearing_aid s a f =>
      (self, try! v := apply_hearing_aid self s a f in Ok (Some v))
  | Call_add_anechoic_hrtf n =>
      (self, try! v := add_anechoic_hrtf self n in Ok (Some v))
  | Call_get_car_noise p =>
      (self, try! v := get_car_noise self p in Ok (Some v))
  | Call_add_car_hrtf s h =>
      (self, try! v := add_car_hrtf self s h in Ok (Some v))
  | Call_scale_signal_to_snr s r snr =>
      (self, try! v := scale_signal_to_snr self s r snr in Ok (Some v))
  | Call_add_two_signals s1 s2 =>
      (self, try! v := add_two_signals s1 s2 in Ok (Some v))
  end.

(** The instance after a sequence of calls, whatever each returned or
    raised. *)
Definition after (self : t) (calls : list call) : t :=
  foldl (fun s c => fst (invoke s c)) self calls.

End Calls.
End Lifetime.

(** ** Concrete collaborators for evaluation *)

Module Bench.

(** Impulse responses on disk: three taps for every anechoic file. *)
Definition disk (path : string) : result (list Q) :=
  if bool_decide (path = "hrtf/Anechoic/audio/HR36_LSP01_CH1_Left.wav") then Ok [1; 0; 0]%Q
  else if bool_decide (path = "hrtf/Anechoic/audio/HR36_LSP01_CH1_Right.wav") then Ok [0; 1; 0]%Q
  else if bool_decide (path = "hrtf/Anechoic/audio/HR0_LSP01_CH1_Left.wav") then Ok [2; 0; 0]%Q
  else if bool_decide (path = "hrtf/Anechoic/audio/HR0_LSP01_CH1_Right.wav") then Ok [0; 0; 1]%Q
  else if bool_decide (path = "hrtf/Anechoic/audio/HR72_LSP01_CH1_Left.wav") then Ok [0; 1; 1]%Q
  else if bool_decide (path = "hrtf/Anechoic/audio/HR72_LSP01_CH1_Right.wav") then Ok [3; 0; 0]%Q
  else Raise OSError.

(** A generator that records how it was built and echoes how it is called;
    a meter that answers [-23] for every buffer; unit gain. *)
#[global] Instance collaborators : Collaborators Q := {|
  Config := unit;
  NoiseParameters := Z;
  NALR := unit;
  Compressor := unit;
  CarNoiseSignalGenerator := Q * Z;
  Meter := Z;
  wavfile_read := disk;
  NALR_new := fun _ => Ok tt;
  Compressor_new := fun _ => Ok tt;
  CarNoiseSignalGenerator_new := fun d r => Ok (d, r);
  Meter_new := fun r => Ok r;
  nalr_build := fun _ _ _ => Ok [1%Q];
  nalr_apply := fun _ fir s => Ok s;
  compressor_process := fun _ s => Ok s;
  generate_car_noise := fun _ p n c =>
    Ok (Nd2 3 [[inject_Z p; inject_Z n; inject_Z c]]);
  integrated_loudness := fun _ _ => Ok (-23 # 1)%Q;
  loudness_gain := fun _ _ => 1%Q;
|}.

Definition scene : result CarSceneAcoustics.t :=
  CarSceneAcoustics.__init__ 10 16000 "hrtf" tt tt CarSceneAcoustics.default_extend_noise.

(** An instance with an empty impulse-response dict. *)
Definition bare : CarSceneAcoustics.t :=
  CarSceneAcoustics.mk 12%Q 16000%Z "hrtf" ∅ tt tt (12%Q, 16000%Z) 16000%Z.

(** The constructed instance. *)
Definition loaded : CarSceneAcoustics.t :=
  match scene with
  | Ok self => self
  | Raise _ => bare
  end.

(** A 3x4 noise buffer. *)
Definition noise_3x4 : ndarray Q :=
  Nd2 4 [[1; 2; 3; 4]; [10; 20; 30; 40]; [100; 200; 300; 400]]%Q.

(** Three samples of two channels, sample-major: shape [(3, 2)]. *)
Definition signal_3x2 : ndarray Q := Nd2 2 [[1; 2]; [3; 4]; [5; 6]]%Q.

(** Two channels of three samples, channel-major: shape [(2, 3)]. *)
Definition signal_2x3 : ndarray Q := Nd2 3 [[1; 3; 5]; [2; 4; 6]]%Q.

(** A 1-D array of three samples. *)
Definition signal_3 : ndarray Q := Nd1 [1; 2; 3]%Q.

End Bench.

(** ** Signal I/O layer *)

Module FileIO.

(** Modelled from the spec: the full-scale value of 16-bit PCM and the
    representable integer range ([clarity/utils/file_io.py] is not among the
    sources, only its tests are). *)
Definition FULL_SCALE : Z := 32768.
Definition INT16_MIN : Z := -32768.
Definition INT16_MAX : Z := 32767.

(** Modelled from the spec: rounding, to the nearest integer (ties
    upwards). *)
Definition round_nearest (q : Q) : Z := Qfloor (q + (1 # 2)).

(** Modelled from the spec: sample-major audio buffer of the I/O layer
    ([clarity/utils/file_io.py] is not among the sources): a 2-D array of
    [samples x channels]. *)
Record AudioBuffer : Type := mkBuffer {
  channels : nat;
  frames : list (list Q);
}.

(** Modelled from the spec: the shape [(samples, channels)] of a buffer. *)
Definition buffer_shape (b : AudioBuffer) : list nat :=
  [length (frames b); channels b].

(** Modelled from the spec: payload of a WAV file, 16-bit integer PCM or
    32-bit floating point, frame by frame. *)
Inductive payload : Type :=
| PCM_16 (data : list (list Z))
| FLOAT (data : list (list Q)).

(** Modelled from the spec: a WAV file, with the sample rate of its header. *)
Record wav : Type := mkWav {
  wav_rate : Z;
  wav_channels : nat;
  wav_payload : payload;
}.

(** Modelled from the spec: the world the I/O layer acts on, the files by
    path and the warnings logged so far. *)
Record world : Type := mkWorld {
  files : gmap string wav;
  warnings : list string;
}.

(** Modelled from the spec: a sample scaled by the full-scale value and
    rounded. *)
Definition quantize (x : Q) : Z := round_nearest (x * inject_Z FULL_SCALE).

(** Modelled from the spec: the integer is not a 16-bit value. *)
Definition out_of_range (n : Z) : bool :=
  (n <? INT16_MIN)%Z || (INT16_MAX <? n)%Z.

(** Modelled from the spec: the sample, after scaling, exceeds the
    representable integer range. *)
Definition clips (x : Q) : bool :=
  negb (Qle_bool (inject_Z INT16_MIN) (x * inject_Z FULL_SCALE))
  || negb (Qle_bool (x * inject_Z FULL_SCALE) (inject_Z INT16_MAX)).

(** Modelled from the spec: some sample of the frames clips. *)
Definition any_clipped (fs : list (list Q)) : bool :=
  existsb (existsb clips) fs.

(** Modelled from the spec: integer PCM back to floating point in [-1, 1],
    scaled by the full-scale value. *)
Definition dequantize (n : Z) : Q := inject_Z n / inject_Z FULL_SCALE.

Section Layer.
(** The integer cast applied to an out-of-range value under
    [strict=False], which the spec leaves open (truncate or wrap). *)
Variable overflow_cast : Z -> Z.
(** Bandlimited resampling of the frames from one rate to another. *)
Variable resample : Z -> Z -> list (list Q) -> list (list Q).

(** Modelled from the spec: the cast to a 16-bit integer. *)
Definition to_int16 (n : Z) : Z :=
  if out_of_range n then overflow_cast n else n.

(** Modelled from the spec: creating or replacing a file. *)
Definition put_file (w : world) (path : string) (f : wav) : world :=
  mkWorld (<[path := f]> (files w)) (warnings w).

(** Modelled from the spec: logging a warning. *)
Definition log_warning (w : world) (msg : string) : world :=
  mkWorld (files w) (msg :: warnings w).

(** Modelled from the spec: the 16-bit file that holds [signal], every
    sample scaled, rounded and cast. *)
Definition written_pcm (signal : AudioBuffer) (rate : Z) : wav :=
  mkWav rate (channels signal)
    (PCM_16 (fmap (M:=list) (fun x => to_int16 (quantize x)) <$> frames signal)).

(** Modelled from the spec: [write_signal(path, signal, sample_rate,
    floating_point, strict)].  The world afterwards and the outcome. *)
Definition write_signal (w : world) (path : string) (signal : AudioBuffer)
    (sample_rate : Z) (floating_point strict : bool) : world * result unit :=
  if floating_point then
    (put_file w path (mkWav sample_rate (channels signal) (FLOAT (frames signal))),
     Ok tt)
  else if any_clipped (frames signal) then
    if strict then (w, Raise ValueError)
    else
      (put_file (log_warning w "samples clipped") path
         (written_pcm signal sample_rate),
       Ok tt)
  else (put_file w path (written_pcm signal sample_rate), Ok tt).

(** Modelled from the spec: integer formats are converted to floating
    point, floating-point formats are left unchanged. *)
Definition decode (p : payload) : list (list Q) :=
  match p with
  | PCM_16 d => fmap (M:=list) dequantize <$> d
  | FLOAT d => d
  end.

(** Modelled from the spec: the offset in frames, from a sample count or
    from a time in seconds (the nearest frame at the file's rate). *)
Definition offset_frames (rate : Z) (offset : Q) (offset_is_samples : bool) : nat :=
  Z.to_nat (if offset_is_samples then Qfloor offset
            else round_nearest (offset * inject_Z rate)).

(** Modelled from the spec: [read_signal(path, sample_rate, n_channels,
    offset, offset_is_samples, allow_resample)]. *)
Definition read_signal (w : world) (path : string) (sample_rate : Z)
    (n_channels : nat) (offset : Q) (offset_is_samples allow_resample : bool)
    : result AudioBuffer :=
  match files w !! path with
  | None => Raise OSError
  | Some f =>
      if negb (Nat.eqb (wav_channels f) n_channels) then Raise ValueError
      else if negb (Z.eqb (wav_rate f) sample_rate) && negb allow_resample
      then Raise ValueError
      else
        let x := drop (offset_frames (wav_rate f) offset offset_is_samples)
                      (decode (wav_payload f)) in
        let x := if Z.eqb (wav_rate f) sample_rate then x
                 else resample (wav_rate f) sample_rate x in
        Ok (mkBuffer (wav_channels f) x)
  end.

(** Modelled from the spec: [n_channels] defaults to 1. *)
Definition default_n_channels : nat := 1.

End Layer.

(** Two's-complement wrap-around, one choice of integer cast. *)
Definition wrap16 (n : Z) : Z := ((n + 32768) mod 65536 - 32768)%Z.

(** No resampling available: the frames are returned as they are. *)
Definition no_resample (_ _ : Z) (x : list (list Q)) : list (list Q) := x.

(** [np.ones((10, 2)) * 0.5] *)
Definition half_10x2 : AudioBuffer := mkBuffer 2 (replicate 10 [1 # 2; 1 # 2]%Q).


(** [np.array([0.1, -0.2, 0.1, -0.5, 0.99])] as five frames of one channel. *)
Definition mono_5 : AudioBuffer :=
  mkBuffer 1 [[1 # 10]; [-2 # 10]; [1 # 10]; [-5 # 10]; [99 # 100]]%Q.

Definition empty_world : world := mkWorld ∅ [].

End FileIO.

(** ** IEEE binary64 values of the offsets used by the I/O tests *)

Module Binary64.

Definition prec : Z := 53.
Definition emax : Z := 1024.

(** The exact rational value of a finite double. *)
Definition to_Q (f : spec_float) : Q :=
  match f with
  | S754_finite s m e =>
      let v := (inject_Z (Z.pos m) * Qpower 2 e)%Q in
      if s then Qopp v else v
  | _ => 0%Q
  end.

(** The double denoted by the literal [0.0003]: [0x1.3a92a30553261p-12]. *)
Definition lit_0_0003 : spec_float := S754_finite false 5534023222112865 (-64).

(** The double [10000.0]. *)
Definition lit_10000 : spec_float := S754_finite false 10000 0.

(** The product as the processor computes it. *)
Definition seconds_times_rate : spec_float := SFmul prec emax lit_0_0003 lit_10000.

End Binary64.

(** ** A second set of collaborators: cabin responses on disk, anechoic set
       incomplete *)

Module Cabin.

(** The four in-cabin responses and only the first two anechoic ones. *)
Definition disk (path : string) : result (list Q) :=
  if bool_decide (path = "hrtf/Car/audio/HR13_E02_CH1_Left.wav") then Ok [1; 0]%Q
  else if bool_decide (path = "hrtf/Car/audio/HR13_E02_CH1_Right.wav") then Ok [0; 1]%Q
  else if bool_decide (path = "hrtf/Car/audio/HR14_E02_CH1_Left.wav") then Ok [0; 2]%Q
  else if bool_decide (path = "hrtf/Car/audio/HR14_E02_CH1_Right.wav") then Ok [3; 0]%Q
  else if bool_decide (path = "hrtf/Anechoic/audio/HR36_LSP01_CH1_Left.wav") then Ok [1; 0; 0]%Q
  else if bool_decide (path = "hrtf/Anechoic/audio/HR36_LSP01_CH1_Right.wav") then Ok [0; 1; 0]%Q
  else Raise OSError.

Definition collaborators : Collaborators Q := {|
  Config := unit;
  NoiseParameters := Z;
  NALR := unit;
  Compressor := unit;
  CarNoiseSignalGenerator := Q * Z;
  Meter := Z;
  wavfile_read := disk;
  NALR_new := fun _ => Ok tt;
  Compressor_new := fun _ => Ok tt;
  CarNoiseSignalGenerator_new := fun d r => Ok (d, r);
  Meter_new := fun r => Ok r;
  nalr_build := fun _ _ _ => Ok [1%Q];
  nalr_apply := fun _ fir s => Ok s;
  compressor_process := fun _ s => Ok s;
  generate_car_noise := fun _ p n c =>
    Ok (Nd2 3 [[inject_Z p; inject_Z n; inject_Z c]]);
  integrated_loudness := fun _ _ => Ok (-23 # 1)%Q;
  loudness_gain := fun _ _ => 1%Q;
|}.

(** An instance that holds all six anechoic responses from an earlier
    load. *)
Definition instance : @CarSceneAcoustics.t Q collaborators :=
  @CarSceneAcoustics.mk Q collaborators 12%Q 16000%Z "hrtf"
    (list_to_map
       [("000_left", [1; 0; 0]%Q); ("000_right", [0; 1; 0]%Q);
        ("m90_left", [2; 0; 0]%Q); ("m90_right", [0; 0; 1]%Q);
        ("p90_left", [0; 1; 1]%Q); ("p90_right", [3; 0; 0]%Q)])
    tt tt (12%Q, 16000%Z) 16000%Z.

(** The caller's mapping from logical keys to file names. *)
Definition hrir : gmap string string :=
  list_to_map
    [("LSP03_CH1_Left", "HR13_E02_CH1_Left"); ("LSP03_CH1_Right", "HR13_E02_CH1_Right");
     ("LSP04_CH1_Left", "HR14_E02_CH1_Left"); ("LSP04_CH1_Right", "HR14_E02_CH1_Right")].

(** A 2x4 stereo feed. *)
Definition feed_2x4 : ndarray Q := Nd2 4 [[1; 2; 3; 4]; [10; 20; 30; 40]]%Q.

End Cabin.

(** * Properties *)

(** ** The error monad *)

Lemma bind_ok_inv {T U : Type} (m : result T) (k : T -> result U) (u : U) :
  (try! x := m in k x) = Ok u -> exists v, m = Ok v /\ k v = Ok u.
Proof. destruct m as [v|e]; simpl; intros H; [eauto | discriminate]. Qed.

Ltac inv_bind H :=
  let v := fresh "v" in
  let Hm := fresh "Hm" in
  apply bind_ok_inv in H; destruct H as (v & Hm & H).

(** ** Arrays *)

Section NdarrayFacts.
Context {A : Type} `{Arith A}.

Lemma shape_transpose2 (c : nat) (rs : list (list A)) :
  shape (transpose (Nd2 c rs)) = [c; length rs].
Proof. simpl. by rewrite length_fmap, length_seq. Qed.

Lemma shape_scale (g : A) (a : ndarray A) : shape (scale g a) = shape a.
Proof. destruct a; simpl; by rewrite length_fmap. Qed.

Lemma shape_transpose_scale (g : A) (c : nat) (rs : list (list A)) :
  shape (transpose (scale g (Nd2 c rs))) = [c; length rs].
Proof. simpl. by rewrite !length_fmap, length_seq. Qed.

Lemma tuple_get_shape1_1 (d : list A) : tuple_get (shape (Nd1 d)) 1 = Raise IndexError.
Proof. reflexivity. Qed.

End NdarrayFacts.

(** ** Loudness scaler *)

Section ScaleSignalToSnr.
Import CarSceneAcoustics.
Context {A : Type} `{Arith A} `{Collaborators A}.

Lemma orient_2d (c : nat) (rs : list (list A)) :
  orient (shape (Nd2 c rs)) (Nd2 c rs)
  = Ok (if Nat.ltb (length rs) c then transpose (Nd2 c rs) else Nd2 c rs).
Proof. reflexivity. Qed.

Lemma orient_1d (d : list A) (x : ndarray A) :
  orient (shape (Nd1 d)) x = Raise IndexError.
Proof. reflexivity. Qed.

(** Whatever the orientation of a 2-D input, a successful call returns
    the shorter axis first. *)
Lemma scale_signal_to_snr_shape (self : t) (c : nat) (rs : list (list A))
    (reference_signal : option (ndarray A)) (snr : A) (out : ndarray A) :
  scale_signal_to_snr self (Nd2 c rs) reference_signal snr = Ok out ->
  shape out = if Nat.ltb (length rs) c then [length rs; c] else [c; length rs].
Proof.
  unfold scale_signal_to_snr. intros Hrun.
  inv_bind Hrun. inv_bind Hrun. rewrite orient_2d in Hrun.
  simpl in Hrun. inv_bind Hrun. inv_bind Hrun.
  injection Hrun as <-. unfold normalize_loudness.
  destruct (Nat.ltb (length rs) c) eqn:Hlt.
  - simpl. rewrite !length_fmap, !length_seq. reflexivity.
  - apply shape_transpose_scale.
Qed.

(** C2 (as the code runs): a sample-major 2-D input, with more samples
    than channels, on which the transpose heuristic does not fire, comes
    back transposed whenever the call returns: the shape of the result is
    not the shape the caller passed. *)
Theorem scale_signal_to_snr_sample_major_transposed (self : t) (c : nat)
    (rs : list (list A)) (reference_signal : option (ndarray A)) (snr : A)
    (out : ndarray A) :
  c < length rs ->
  scale_signal_to_snr self (Nd2 c rs) reference_signal snr = Ok out ->
  shape out = [c; length rs] /\ shape out <> shape (Nd2 c rs).
Proof.
  intros Hlt Hrun. apply scale_signal_to_snr_shape in Hrun.
  destruct (Nat.ltb_spec (length rs) c) as [Hlt'|_]; [lia|].
  rewrite Hrun. split; [done|]. simpl. intros [= E]. lia.
Qed.

(** C1 (as the code runs): without a reference signal the call does not
    reach the 0 LUFS default; reading [reference_signal.shape] on [None]
    raises [AttributeError], for every signal and every snr. *)
Theorem scale_signal_to_snr_none_reference (self : t) (signal : ndarray A) (snr : A) :
  scale_signal_to_snr self signal None snr = Raise AttributeError.
Proof. reflexivity. Qed.

(** C8 (amended): when the reference signal is an array, a 1-D array
    passed as signal or as reference signal makes the call fail with
    [IndexError] at the orientation heuristic. *)
Theorem scale_signal_to_snr_1d_index_error (self : t) (signal : ndarray A)
    (reference_signal : option (ndarray A)) (snr : A) :
  (exists d, reference_signal = Some (Nd1 d)) \/
  ((exists d, signal = Nd1 d) /\ exists r, reference_signal = Some r) ->
  scale_signal_to_snr self signal reference_signal snr = Raise IndexError.
Proof.
  intros [[d ->] | [[d ->] [r ->]]].
  - reflexivity.
  - unfold scale_signal_to_snr. destruct r as [d'|c rs].
    + reflexivity.
    + unfold orient. cbn. destruct (Nat.ltb (length rs) c); reflexivity.
Qed.

End ScaleSignalToSnr.

(** Witness of C8 (amended): a 1-D signal against a 2-D reference. *)
Lemma scale_signal_to_snr_1d_index_error_witness :
  CarSceneAcoustics.scale_signal_to_snr Bench.bare Bench.signal_3
    (Some Bench.signal_2x3) 0%Q = Raise IndexError.
Proof.
  apply scale_signal_to_snr_1d_index_error.
  right. split; [exists [1; 2; 3]%Q | exists Bench.signal_2x3]; reflexivity.
Defined.

(** C8 (as stated) fails: with a 1-D signal and no reference signal the call
    raises [AttributeError], not [IndexError]. *)
Lemma scale_signal_to_snr_1d_not_always_index_error :
  ~ (forall (self : CarSceneAcoustics.t) (signal : ndarray Q)
       (reference_signal : option (ndarray Q)) (snr : Q),
       (exists d, signal = Nd1 d) \/ (exists d, reference_signal = Some (Nd1 d)) ->
       CarSceneAcoustics.scale_signal_to_snr self signal reference_signal snr
       = Raise IndexError).
Proof.
  intros Hall.
  specialize (Hall Bench.bare Bench.signal_3 None 0%Q).
  discriminate Hall. left. by exists [1; 2; 3]%Q.
Qed.

(** Witness of C2: three samples of two channels come back as two rows of
    three. *)
Lemma scale_signal_to_snr_sample_major_transposed_witness :
  shape (Nd2 3 [[1; 3; 5]; [2; 4; 6]]%Q) = [2; 3] /\
  shape (Nd2 3 [[1; 3; 5]; [2; 4; 6]]%Q) <> shape Bench.signal_3x2.
Proof.
  apply (scale_signal_to_snr_sample_major_transposed Bench.bare
           2 [[1; 2]; [3; 4]; [5; 6]]%Q (Some Bench.signal_3x2) 0%Q).
  - simpl. lia.
  - vm_compute. reflexivity.
Defined.

(** ** Lists built by [omap] from a function defined on every index *)

Section OmapTotal.
Context {X Y : Type} (f : X -> option Y).

Lemma omap_total_length (l : list X) :
  Forall (fun x => is_Some (f x)) l -> length (omap f l) = length l.
Proof.
  induction 1 as [|x l [y Hy] _ IH]; [done|].
  cbn [omap list_omap]. rewrite Hy. cbn. by f_equal.
Qed.

Lemma omap_total_lookup (l : list X) (j : nat) :
  Forall (fun x => is_Some (f x)) l -> omap f l !! j = l !! j ≫= f.
Proof.
  intros Hall. revert j.
  induction Hall as [|x l [y Hy] _ IH]; intros j; [done|].
  cbn [omap list_omap]. rewrite Hy. destruct j as [|j]; cbn; [done | apply IH].
Qed.
End OmapTotal.

(** ** Signal mixer *)

Section AddTwoSignals.
Import CarSceneAcoustics.
Context {A : Type} `{Arith A}.

Lemma bidx_lt (d i : nat) : i < d -> bidx d i = i.
Proof.
  unfold bidx. destruct (Nat.eqb_spec d 1) as [->|]; [lia | done].
Qed.

Lemma broadcast_dim_same (n : nat) : broadcast_dim n n = Ok n.
Proof. unfold broadcast_dim. by rewrite Nat.eqb_refl. Qed.

(** An element of a well-formed 2-D array inside its shape exists. *)
Lemma get2_in_shape (c : nat) (rs : list (list A)) (i j : nat) :
  wf (Nd2 c rs) -> i < length rs -> j < c -> is_Some (get2 (Nd2 c rs) i j).
Proof.
  intros Hwf Hi Hj. simpl.
  destruct (lookup_lt_is_Some_2 rs i Hi) as [r Hr]. rewrite Hr. simpl.
  apply lookup_lt_is_Some_2.
  simpl in Hwf. rewrite Forall_forall in Hwf.
  rewrite (Hwf r); [done|]. eapply list_elem_of_lookup_2, Hr.
Qed.

(** Slicing the columns keeps the elements below the cut. *)
Lemma get2_take_cols (c m : nat) (rs : list (list A)) (i j : nat) :
  j < m -> get2 (Nd2 (min m c) (take m <$> rs)) i j = get2 (Nd2 c rs) i j.
Proof.
  intros Hj. simpl. rewrite list_lookup_fmap.
  destruct (rs !! i) as [r|]; simpl; [|done].
  by apply lookup_take_lt.
Qed.

Lemma wf_take_cols (c m : nat) (rs : list (list A)) :
  wf (Nd2 c rs) -> wf (Nd2 (min m c) (take m <$> rs)).
Proof.
  simpl. intros Hwf. apply Forall_fmap. eapply Forall_impl; [exact Hwf|].
  intros r Hr. simpl in *. rewrite length_take, Hr. done.
Qed.

(** Addition of two well-formed arrays of one shape. *)
Lemma add2_same_shape (c : nat) (ra rb : list (list A)) :
  wf (Nd2 c ra) -> wf (Nd2 c rb) -> length ra = length rb ->
  exists out,
    add2 (Nd2 c ra) (Nd2 c rb) = Ok (Nd2 c out) /\
    length out = length ra /\
    wf (Nd2 c out) /\
    forall i j, i < length ra -> j < c ->
      exists x y,
        get2 (Nd2 c ra) i j = Some x /\
        get2 (Nd2 c rb) i j = Some y /\
        get2 (Nd2 c out) i j = Some (add x y).
Proof.
  intros Hwa Hwb Hlen. unfold add2.
  rewrite broadcast_dim_same. cbn [Py.bind].
  rewrite <- Hlen, broadcast_dim_same. cbn [Py.bind].
  eexists. split; [reflexivity|].
  set (cell := fun i j : nat =>
    x ← get2 (Nd2 c ra) (bidx (length ra) i) (bidx c j);
    y ← get2 (Nd2 c rb) (bidx (length ra) i) (bidx c j);
    Some (add x y)).
  assert (Hcell : forall i j, i < length ra -> j < c ->
            exists x y, get2 (Nd2 c ra) i j = Some x /\
                        get2 (Nd2 c rb) i j = Some y /\
                        cell i j = Some (add x y)).
  { intros i j Hi Hj. unfold cell. rewrite !bidx_lt by done.
    destruct (get2_in_shape c ra i j Hwa Hi Hj) as [x Hx].
    destruct (get2_in_shape c rb i j Hwb ltac:(lia) Hj) as [y Hy].
    exists x, y. rewrite Hx, Hy. done. }
  assert (Htot : forall i, i < length ra ->
            Forall (fun j => is_Some (cell i j)) (seq 0 c)).
  { intros i Hi. apply Forall_forall. intros j Hj%elem_of_seq.
    destruct (Hcell i j Hi ltac:(lia)) as (x & y & _ & _ & ->). eauto. }
  split; [by rewrite length_fmap, length_seq|]. split.
  - simpl. apply Forall_fmap, Forall_forall. intros i Hi%elem_of_seq. simpl.
    rewrite omap_total_length by (apply Htot; lia). by rewrite length_seq.
  - intros i j Hi Hj.
    destruct (Hcell i j Hi Hj) as (x & y & Hx & Hy & Hc).
    exists x, y. split; [done|]. split; [done|].
    cbn [get2]. rewrite list_lookup_fmap, lookup_seq_lt by done. cbn.
    rewrite omap_total_lookup by (apply Htot; lia).
    rewrite lookup_seq_lt by done. cbn. exact Hc.
Qed.

(** C3: two 2-D buffers with the same channel count are summed over the
    shorter sample count: the result is well formed, has that many
    channels and [min] samples, and its element [[c][i]] is
    [a[c][i] + b[c][i]].  Lengths 5 and 3 give length 3. *)
Theorem add_two_signals_truncates_and_sums (c1 c2 : nat) (rs1 rs2 : list (list A)) :
  wf (Nd2 c1 rs1) -> wf (Nd2 c2 rs2) -> length rs1 = length rs2 ->
  exists out,
    add_two_signals (Nd2 c1 rs1) (Nd2 c2 rs2) = Ok out /\
    wf out /\
    shape out = [length rs1; min c1 c2] /\
    forall ch i, ch < length rs1 -> i < min c1 c2 ->
      exists x y,
        get2 (Nd2 c1 rs1) ch i = Some x /\
        get2 (Nd2 c2 rs2) ch i = Some y /\
        get2 out ch i = Some (add x y).
Proof.
  intros Hw1 Hw2 Hlen. unfold add_two_signals. cbn.
  set (m := min c1 c2).
  assert (Hm1 : min m c1 = m) by lia. assert (Hm2 : min m c2 = m) by lia.
  pose proof (wf_take_cols c1 m rs1 Hw1) as Hs1.
  pose proof (wf_take_cols c2 m rs2 Hw2) as Hs2.
  rewrite Hm1 in Hs1. rewrite Hm2 in Hs2.
  destruct (add2_same_shape m (take m <$> rs1) (take m <$> rs2) Hs1 Hs2)
    as (out & Hout & Hlo & Hwo & Hel); [by rewrite !length_fmap|].
  rewrite Hm1, Hm2. exists (Nd2 m out). split; [exact Hout|].
  split; [exact Hwo|]. rewrite length_fmap in Hlo, Hel.
  split; [simpl; by rewrite Hlo|].
  intros ch i Hch Hi.
  destruct (Hel ch i Hch Hi) as (x & y & Hx & Hy & Hxy).
  exists x, y. split; [|split; [|exact Hxy]].
  - pose proof (get2_take_cols c1 m rs1 ch i Hi) as E.
    rewrite Hm1, Hx in E. symmetry. exact E.
  - pose proof (get2_take_cols c2 m rs2 ch i Hi) as E.
    rewrite Hm2, Hy in E. symmetry. exact E.
Qed.

End AddTwoSignals.

(** Witness of C3: two 2-channel buffers of 5 and 3 samples. *)
Lemma add_two_signals_truncates_and_sums_witness :
  exists out,
    CarSceneAcoustics.add_two_signals
      (Nd2 5 [[1; 2; 3; 4; 5]; [6; 7; 8; 9; 10]]%Q)
      (Nd2 3 [[10; 20; 30]; [40; 50; 60]]%Q) = Ok out /\
    wf out /\
    shape out = [2; 3] /\
    forall ch i, ch < 2 -> i < 3 ->
      exists x y,
        get2 (Nd2 5 [[1; 2; 3; 4; 5]; [6; 7; 8; 9; 10]]%Q) ch i = Some x /\
        get2 (Nd2 3 [[10; 20; 30]; [40; 50; 60]]%Q) ch i = Some y /\
        get2 out ch i = Some (add x y).
Proof.
  apply (add_two_signals_truncates_and_sums 5 3
           [[1; 2; 3; 4; 5]; [6; 7; 8; 9; 10]]%Q [[10; 20; 30]; [40; 50; 60]]%Q).
  - repeat constructor.
  - repeat constructor.
  - reflexivity.
Defined.

(** ** Anechoic spatialiser *)

Section AddAnechoicHrtf.
Import CarSceneAcoustics.
Context {A : Type} `{Arith A} `{Collaborators A}.

Lemma length_fir (b x : list A) : length (fir b x) = length x.
Proof. unfold fir. by rewrite length_fmap, length_seq. Qed.

Lemma lookup_fir (b x : list A) (n : nat) :
  n < length x -> fir b x !! n = Some (fir_sample b x n).
Proof.
  intros Hn. unfold fir. rewrite list_lookup_fmap, lookup_seq_lt by done.
  reflexivity.
Qed.

(** The filter runs on a non-empty numerator and a non-empty input. *)
Lemma lfilter_ok (b x : list A) :
  b <> [] -> 0 < length x -> lfilter b x = Ok (fir b x).
Proof.
  intros Hb Hx. destruct b as [|b0 b]; [done|].
  destruct x as [|x0 x]; [cbn in Hx; lia | reflexivity].
Qed.

Lemma lfilter_empty_input (b : list A) : lfilter b [] = Raise ValueError.
Proof. by destruct b. Qed.

Lemma lfilter_empty_numerator (x : list A) : lfilter [] x = Raise ValueError.
Proof. reflexivity. Qed.

(** In-place addition of a 1-D array of the same length is element by
    element. *)
Lemma iadd1_same_length (u v : list A) :
  length u = length v ->
  exists w,
    iadd1 u v = Ok w /\
    length w = length u /\
    forall n x y, u !! n = Some x -> v !! n = Some y -> w !! n = Some (add x y).
Proof.
  intros Hlen. unfold iadd1. rewrite <- Hlen, Nat.eqb_refl. cbn [orb].
  set (cell := fun i : nat =>
    x ← u !! i; y ← v !! bidx (length u) i; Some (add x y)).
  assert (Htot : Forall (fun i => is_Some (cell i)) (seq 0 (length u))).
  { apply Forall_forall. intros i Hi%elem_of_seq. unfold cell.
    rewrite bidx_lt by lia.
    destruct (lookup_lt_is_Some_2 u i ltac:(lia)) as [x ->].
    destruct (lookup_lt_is_Some_2 v i ltac:(lia)) as [y ->]. eauto. }
  eexists. split; [reflexivity|]. split.
  - by rewrite omap_total_length, length_seq.
  - intros n x y Hx Hy.
    assert (Hn : n < length u) by (eapply lookup_lt_Some, Hx).
    rewrite omap_total_lookup, lookup_seq_lt by done. cbn.
    unfold cell. rewrite bidx_lt by done. rewrite Hx, Hy. done.
Qed.

Lemma dict_get_preloaded (self : t) (key : string) (h : list A) :
  preloaded self key h -> dict_get (hrir_values self) key = Ok h.
Proof. unfold preloaded, dict_get. by intros ->. Qed.

(** C4 (amended): on a 3xN noise buffer with at least one sample, and with
    six non-empty impulse responses, the result is the 2xN buffer whose left
    channel is, sample by sample, the sum over the three rows of the
    causal FIR filtering of the row by the left-ear impulse response of
    its direction, and whose right channel is the same sum with the
    right-ear impulse responses. *)
Theorem add_anechoic_hrtf_sums_filtered_rows (self : t) (N : nat)
    (engine src_left src_right : list A)
    (h000l h000r hm90l hm90r hp90l hp90r : list A) :
  preloaded self "000_left" h000l -> preloaded self "000_right" h000r ->
  preloaded self "m90_left" hm90l -> preloaded self "m90_right" hm90r ->
  preloaded self "p90_left" hp90l -> preloaded self "p90_right" hp90r ->
  h000l <> [] -> h000r <> [] -> hm90l <> [] -> hm90r <> [] ->
  hp90l <> [] -> hp90r <> [] ->
  0 < N ->
  length engine = N -> length src_left = N -> length src_right = N ->
  exists out_left our_right,
    add_anechoic_hrtf self (Nd2 N [engine; src_left; src_right])
    = Ok (Nd2 N [out_left; our_right]) /\
    length out_left = N /\ length our_right = N /\
    forall n, n < N ->
      out_left !! n
      = Some (add (add (fir_sample h000l engine n) (fir_sample hm90l src_left n))
                  (fir_sample hp90l src_right n)) /\
      our_right !! n
      = Some (add (add (fir_sample h000r engine n) (fir_sample hm90r src_left n))
                  (fir_sample hp90r src_right n)).
Proof.
  intros H0l H0r Hml Hmr Hpl Hpr N0l N0r Nml Nmr Npl Npr HN He Hl Hr.
  unfold add_anechoic_hrtf.
  rewrite (dict_get_preloaded _ _ _ H0l), (dict_get_preloaded _ _ _ H0r),
    (dict_get_preloaded _ _ _ Hml), (dict_get_preloaded _ _ _ Hmr),
    (dict_get_preloaded _ _ _ Hpl), (dict_get_preloaded _ _ _ Hpr).
  cbn [Py.bind row lookup list_lookup].
  rewrite (lfilter_ok h000l engine), (lfilter_ok h000r engine),
    (lfilter_ok hm90l src_left), (lfilter_ok hm90r src_left),
    (lfilter_ok hp90l src_right), (lfilter_ok hp90r src_right) by (done || lia).
  cbn [Py.bind].
  destruct (iadd1_same_length (fir h000l engine) (fir hm90l src_left))
    as (l1 & -> & Hl1 & Hs1); [rewrite !length_fir; congruence|].
  destruct (iadd1_same_length (fir h000r engine) (fir hm90r src_left))
    as (r1 & -> & Hr1 & Ht1); [rewrite !length_fir; congruence|].
  cbn [Py.bind].
  rewrite length_fir in Hl1, Hr1.
  destruct (iadd1_same_length l1 (fir hp90l src_right))
    as (l2 & -> & Hl2 & Hs2); [rewrite length_fir; congruence|].
  destruct (iadd1_same_length r1 (fir hp90r src_right))
    as (r2 & -> & Hr2 & Ht2); [rewrite length_fir; congruence|].
  cbn [Py.bind].
  assert (El : length l2 = N) by congruence.
  assert (Er : length r2 = N) by congruence.
  exists l2, r2. split.
  { unfold stack2. rewrite El, Er, Nat.eqb_refl. reflexivity. }
  split; [exact El|]. split; [exact Er|].
  intros n Hn. split.
  - apply Hs2; [apply Hs1|]; apply lookup_fir; lia.
  - apply Ht2; [apply Ht1|]; apply lookup_fir; lia.
Qed.

(** The first filter call on an empty row: [ValueError], once the first
    response is in the dict. *)
Lemma add_anechoic_hrtf_empty_row (self : t) (rest : list (list A)) (h000l : list A) :
  preloaded self "000_left" h000l ->
  add_anechoic_hrtf self (Nd2 0 ([] :: rest)) = Raise ValueError.
Proof.
  intros H0l. unfold add_anechoic_hrtf.
  rewrite (dict_get_preloaded _ _ _ H0l). cbn [Py.bind row lookup list_lookup].
  by rewrite lfilter_empty_input.
Qed.

End AddAnechoicHrtf.

(** Witness of C4: the constructed instance on a 3x4 noise buffer. *)
Lemma add_anechoic_hrtf_sums_filtered_rows_witness :
  exists out_left our_right,
    CarSceneAcoustics.add_anechoic_hrtf Bench.loaded Bench.noise_3x4
    = Ok (Nd2 4 [out_left; our_right]) /\
    length out_left = 4 /\ length our_right = 4 /\
    forall n, n < 4 ->
      out_left !! n
      = Some (add (add (fir_sample [1; 0; 0]%Q [1; 2; 3; 4]%Q n)
                       (fir_sample [2; 0; 0]%Q [10; 20; 30; 40]%Q n))
                  (fir_sample [0; 1; 1]%Q [100; 200; 300; 400]%Q n)) /\
      our_right !! n
      = Some (add (add (fir_sample [0; 1; 0]%Q [1; 2; 3; 4]%Q n)
                       (fir_sample [0; 0; 1]%Q [10; 20; 30; 40]%Q n))
                  (fir_sample [3; 0; 0]%Q [100; 200; 300; 400]%Q n)).
Proof.
  apply (add_anechoic_hrtf_sums_filtered_rows Bench.loaded 4
           [1; 2; 3; 4]%Q [10; 20; 30; 40]%Q [100; 200; 300; 400]%Q
           [1; 0; 0]%Q [0; 1; 0]%Q [2; 0; 0]%Q [0; 0; 1]%Q [0; 1; 1]%Q [3; 0; 0]%Q);
    first [ vm_compute; reflexivity | discriminate | lia ].
Defined.

(** C4 (as stated) fails: on a 3x0 noise buffer, with all six responses
    loaded, the first filter call raises [ValueError] and no 2x0 buffer is
    returned. *)
Lemma add_anechoic_hrtf_empty_buffer_raises :
  ~ (forall (self : CarSceneAcoustics.t) (N : nat)
       (engine src_left src_right : list Q),
       (forall key, key ∈ CarSceneAcoustics.ANECHOIC_HRTF.*1 ->
          is_Some (CarSceneAcoustics.hrir_values self !! key)) ->
       length engine = N -> length src_left = N -> length src_right = N ->
       exists out_left our_right,
         CarSceneAcoustics.add_anechoic_hrtf self (Nd2 N [engine; src_left; src_right])
         = Ok (Nd2 N [out_left; our_right])).
Proof.
  intros Hall.
  destruct (Hall Bench.loaded 0 [] [] []) as (l & r & Hrun); try reflexivity.
  - intros key Hkey. cbn in Hkey.
    repeat (apply elem_of_cons in Hkey as [->|Hkey]; [vm_compute; eauto|]).
    by apply elem_of_nil in Hkey.
  - vm_compute in Hrun. discriminate Hrun.
Qed.

(** ** Construction, impulse-response loading and the noise generator *)

Section Construction.
Import CarSceneAcoustics Lifetime.
Context {A : Type} `{Arith A} `{Collaborators A}.

(** A successful loading loop has read every file of the table and
    stored it under its key; other keys are untouched. *)
Lemma preload_loop_ok (dir : string) (items : list (string * string))
    (d d' : gmap string (list A)) :
  NoDup items.*1 ->
  preload_loop dir items d = (d', Ok tt) ->
  (forall key item, (key, item) ∈ items ->
     exists v, wavfile_read (path_join dir item) = Ok v /\ d' !! key = Some v) /\
  (forall key, key ∉ items.*1 -> d' !! key = d !! key).
Proof.
  revert d. induction items as [|[k it] items IH]; intros d Hnd Hrun.
  - injection Hrun as <-. split; [|done]. intros key item Hin. inversion Hin.
  - cbn [preload_loop] in Hrun. cbn in Hnd. apply NoDup_cons in Hnd as [Hk Hnd].
    destruct (wavfile_read (path_join dir it)) as [v|e] eqn:Hread;
      [|discriminate].
    destruct (IH _ Hnd Hrun) as [Hin Hout]. split.
    + intros key item [Heq|Hmem]%elem_of_cons.
      * injection Heq as -> ->. exists v. split; [done|].
        rewrite (Hout k Hk). apply lookup_insert_eq.
      * by apply Hin.
    + intros key Hkey. cbn in Hkey. apply not_elem_of_cons in Hkey as [Hne Hkey].
      rewrite (Hout key Hkey). by apply lookup_insert_ne.
Qed.

(** After construction the dict holds the six anechoic responses. *)
Lemma init_preloaded (d sr : Z) (dir : string) (cn cc : Config) (e : A) (self : t) :
  __init__ d sr dir cn cc e = Ok self ->
  forall key item, (key, item) ∈ ANECHOIC_HRTF ->
    exists h, wavfile_read (path_join (anechoic_dir dir) item) = Ok h /\
              preloaded self key h.
Proof.
  unfold __init__. intros Hinit.
  destruct (preload_loop (anechoic_dir dir) ANECHOIC_HRTF ∅) as [hv r] eqn:Hloop.
  destruct r as [[]|]; [|discriminate]. cbn [Py.bind] in Hinit.
  do 4 inv_bind Hinit. injection Hinit as <-.
  apply preload_loop_ok in Hloop as [Hin _].
  - exact Hin.
  - apply (bool_decide_unpack (NoDup ANECHOIC_HRTF.*1)). vm_compute. exact I.
Qed.

(** No public method assigns [track_duration], [sample_rate] or
    [carnoise]. *)
Lemma invoke_keeps_duration (self : t) (c : call) :
  track_duration (fst (invoke self c)) = track_duration self /\
  sample_rate (fst (invoke self c)) = sample_rate self /\
  carnoise (fst (invoke self c)) = carnoise self.
Proof.
  destruct c; try done.
  unfold invoke, preload_anechoic_hrtf.
  by destruct (preload_loop _ _ _).
Qed.

Lemma after_keeps_duration (calls : list call) (self : t) :
  track_duration (after self calls) = track_duration self /\
  sample_rate (after self calls) = sample_rate self /\
  carnoise (after self calls) = carnoise self.
Proof.
  revert self. induction calls as [|c calls IH]; intros self; [done|].
  unfold after in *. cbn [foldl].
  destruct (IH (fst (invoke self c))) as (-> & -> & ->).
  apply invoke_keeps_duration.
Qed.

(** C10: after a successful construction with duration [d] and extension
    [e], the stored [track_duration] is [d * (1 + e)], the car-noise
    generator was built with that duration, and both stay so after any
    sequence of calls of the public methods. *)
Theorem track_duration_is_extended (d sr : Z) (dir : string) (cn cc : Config)
    (e : A) (self : t) (calls : list call) :
  __init__ d sr dir cn cc e = Ok self ->
  track_duration self = mul (of_int d) (add one e) /\
  CarNoiseSignalGenerator_new (mul (of_int d) (add one e)) sr = Ok (carnoise self) /\
  track_duration (after self calls) = mul (of_int d) (add one e) /\
  carnoise (after self calls) = carnoise self.
Proof.
  unfold __init__. intros Hinit.
  destruct (preload_loop (anechoic_dir dir) ANECHOIC_HRTF ∅) as [hv r].
  destruct r as [[]|]; [|discriminate]. cbn [Py.bind] in Hinit.
  inv_bind Hinit. inv_bind Hinit. inv_bind Hinit. inv_bind Hinit.
  injection Hinit as <-.
  destruct (after_keeps_duration calls
              (mk (mul (of_int d) (add one e)) sr dir hv v v0 v1 v2))
    as (-> & _ & ->).
  done.
Qed.

(** C9: [get_car_noise] is the generator's answer, result or exception,
    to a call with [number_noise_sources = 2] and
    [commonness_factor = 0]; its only argument is the parameter dict. *)
Theorem get_car_noise_fixed_sources (self : t) (car_noise_params : NoiseParameters) :
  get_car_noise self car_noise_params
  = generate_car_noise (carnoise self) car_noise_params 2%Z 0%Z.
Proof. reflexivity. Qed.

End Construction.

(** Witness of C10: ten seconds with the default extension give twelve,
    also after a run of calls. *)
Lemma track_duration_is_extended_witness :
  CarSceneAcoustics.track_duration Bench.loaded = mul (of_int 10) (add one lit_0_2) /\
  CarNoiseSignalGenerator_new (mul (of_int 10) (add one lit_0_2)) 16000%Z
  = Ok (CarSceneAcoustics.carnoise Bench.loaded) /\
  CarSceneAcoustics.track_duration
    (Lifetime.after Bench.loaded
       [Lifetime.Call_preload_anechoic_hrtf "elsewhere";
        Lifetime.Call_get_car_noise 7%Z;
        Lifetime.Call_add_anechoic_hrtf Bench.noise_3x4])
  = mul (of_int 10) (add one lit_0_2) /\
  CarSceneAcoustics.carnoise
    (Lifetime.after Bench.loaded
       [Lifetime.Call_preload_anechoic_hrtf "elsewhere";
        Lifetime.Call_get_car_noise 7%Z;
        Lifetime.Call_add_anechoic_hrtf Bench.noise_3x4])
  = CarSceneAcoustics.carnoise Bench.loaded.
Proof.
  apply (@track_duration_is_extended Q _ Bench.collaborators
           10 16000 "hrtf" tt tt lit_0_2).
  vm_compute. reflexivity.
Defined.

(** ** Signal I/O layer: quantisation *)

Section Quantisation.
Import FileIO.
Local Open Scope Q_scope.

(** Rounding to the nearest integer moves a value by at most one half. *)
Lemma round_nearest_error (q : Q) :
  - (1 # 2) <= inject_Z (round_nearest q) - q <= 1 # 2.
Proof.
  unfold round_nearest.
  pose proof (Qfloor_le (q + (1 # 2))) as Hle.
  pose proof (Qlt_floor (q + (1 # 2))) as Hlt.
  rewrite inject_Z_plus in Hlt. change (inject_Z 1) with 1 in Hlt.
  split; lra.
Qed.

(** Quantising and decoding a sample moves it by at most half a step of
    [1 / 32768]. *)
Lemma dequantize_quantize_error (x : Q) :
  Qabs (dequantize (quantize x) - x) <= 1 # 65536.
Proof.
  apply Qabs_Qle_condition. unfold dequantize, quantize.
  pose proof (round_nearest_error (x * inject_Z FULL_SCALE)) as [Hlo Hhi].
  change (inject_Z FULL_SCALE) with (32768 # 1) in *.
  set (n := inject_Z (round_nearest (x * (32768 # 1)))) in *.
  unfold Qdiv. change (/ (32768 # 1)) with (1 # 32768).
  split; lra.
Qed.
End Quantisation.

(** ** Signal I/O layer: writing and reading *)

Section WriteRead.
Import FileIO.
Variable overflow_cast : Z -> Z.
Variable resample : Z -> Z -> list (list Q) -> list (list Q).

Lemma existsb_false_Forall {X : Type} (f : X -> bool) (l : list X) :
  existsb f l = false -> Forall (fun x => f x = false) l.
Proof.
  induction l as [|x l IH]; simpl; [constructor|].
  intros [Hx Hl]%orb_false_elim. constructor; auto.
Qed.

Lemma existsb_true_elem {X : Type} (f : X -> bool) (l : list X) (x : X) :
  x ∈ l -> f x = true -> existsb f l = true.
Proof.
  intros Hin Hx. apply existsb_exists. exists x. split; [|done].
  by apply list_elem_of_In.
Qed.

Lemma Forall2_fmap_diag {X Y : Type} (P : X -> Y -> Prop) (g : X -> Y) (l : list X) :
  Forall (fun x => P x (g x)) l -> Forall2 P l (g <$> l).
Proof. induction 1; constructor; auto. Qed.

(** A scaled sample inside the representable range rounds to a 16-bit
    integer, which the cast leaves as it is. *)
Lemma to_int16_in_range (x : Q) :
  clips x = false -> to_int16 overflow_cast (quantize x) = quantize x.
Proof.
  unfold clips. intros [Hlo Hhi]%orb_false_elim.
  apply negb_false_iff, Qle_bool_iff in Hlo, Hhi.
  change (inject_Z INT16_MIN) with (-32768 # 1)%Q in Hlo.
  change (inject_Z INT16_MAX) with (32767 # 1)%Q in Hhi.
  assert (Hin : out_of_range (quantize x) = false).
  { unfold out_of_range, quantize, round_nearest.
    set (s := (x * inject_Z FULL_SCALE)%Q) in *.
    assert (H1 : (Qfloor (inject_Z (-32768)) <= Qfloor (s + (1 # 2)))%Z).
    { apply Qfloor_resp_le. change (inject_Z (-32768)) with (-32768 # 1)%Q. lra. }
    assert (H2 : (Qfloor (s + (1 # 2)) <= Qfloor (65535 # 2))%Z).
    { apply Qfloor_resp_le. lra. }
    rewrite Qfloor_Z in H1. change (Qfloor (65535 # 2)) with 32767%Z in H2.
    apply orb_false_intro; apply Z.ltb_ge; unfold INT16_MIN, INT16_MAX; lia. }
  unfold to_int16. by rewrite Hin.
Qed.

(** A sample that does not clip comes back within half a step. *)
Lemma sample_roundtrip (x : Q) :
  clips x = false ->
  (Qabs (dequantize (to_int16 overflow_cast (quantize x)) - x) <= 1 # 65536)%Q.
Proof.
  intros Hc. rewrite to_int16_in_range by done. apply dequantize_quantize_error.
Qed.

Lemma offset_frames_zero (rate : Z) (is_samples : bool) :
  offset_frames rate 0 is_samples = 0%nat.
Proof.
  unfold offset_frames, round_nearest. destruct is_samples; [reflexivity|].
  assert (E : (0 * inject_Z rate + (1 # 2) == 1 # 2)%Q) by ring.
  rewrite E. reflexivity.
Qed.

Lemma write_signal_no_clip (w : world) (path : string) (signal : AudioBuffer)
    (rate : Z) (strict : bool) :
  any_clipped (frames signal) = false ->
  write_signal overflow_cast w path signal rate false strict
  = (put_file w path (written_pcm overflow_cast signal rate), Ok tt).
Proof. unfold write_signal. by intros ->. Qed.

(** Reading back what was written at the same rate and channel count. *)
Lemma read_signal_written (w : world) (path : string) (signal : AudioBuffer)
    (rate : Z) (offset : Q) (is_samples allow : bool) :
  read_signal resample (put_file w path (written_pcm overflow_cast signal rate)) path rate
    (channels signal) offset is_samples allow
  = Ok (mkBuffer (channels signal)
          (drop (offset_frames rate offset is_samples)
             (fmap (M:=list)
                (fun x => dequantize (to_int16 overflow_cast (quantize x)))
                <$> frames signal))).
Proof.
  unfold read_signal, put_file, written_pcm. cbn [files].
  rewrite lookup_insert_eq. cbn [wav_channels wav_rate wav_payload decode].
  rewrite Nat.eqb_refl, Z.eqb_refl. cbn [negb andb].
  do 3 f_equal. rewrite <- list_fmap_compose.
  apply list_fmap_ext. intros _ f _. cbn. by rewrite <- list_fmap_compose.
Qed.

(** C5: a signal with all samples in [-1, 1] and no clipping, written as
    16-bit integers under [strict=True] and read back, has the same shape
    and every sample within [1/16384] of the original. *)
Theorem write_read_loop (w : world) (path : string) (signal : AudioBuffer)
    (rate : Z) :
  Forall (Forall (fun x => (-1 <= x <= 1)%Q)) (frames signal) ->
  any_clipped (frames signal) = false ->
  exists w' out,
    write_signal overflow_cast w path signal rate false true = (w', Ok tt) /\
    read_signal resample w' path rate (channels signal) 0 false false = Ok out /\
    buffer_shape out = buffer_shape signal /\
    Forall2 (Forall2 (fun x y => (Qabs (y - x) <= 1 # 16384)%Q))
      (frames signal) (frames out).
Proof.
  intros _ Hclip. eexists _, _.
  split; [by apply write_signal_no_clip|].
  split; [apply read_signal_written|].
  rewrite offset_frames_zero, drop_0. unfold buffer_shape. cbn [frames channels].
  split; [by rewrite length_fmap|].
  apply Forall2_fmap_diag.
  apply existsb_false_Forall in Hclip.
  eapply Forall_impl; [exact Hclip|]. intros f Hf. cbn beta in *.
  apply Forall2_fmap_diag. apply existsb_false_Forall in Hf.
  eapply Forall_impl; [exact Hf|]. intros x Hx. cbn beta in *.
  eapply Qle_trans; [by apply sample_roundtrip|]. done.
Qed.


Lemma offset_three_samples : offset_frames 10000 3 true = 3%nat.
Proof. reflexivity. Qed.

Lemma offset_three_ten_thousandths : offset_frames 10000 (3 # 10000) false = 3%nat.
Proof. reflexivity. Qed.

(** The double closest to [0.0003] is also three frames away. *)
Lemma offset_double_literal :
  offset_frames 10000 (Binary64.to_Q Binary64.lit_0_0003) false = 3%nat.
Proof. vm_compute. reflexivity. Qed.

(** C7: a 10-sample, 2-channel file written at 10000 Hz, read from
    [offset=3] samples, is a buffer of 7 samples by 2 channels, and so is
    the read from [offset=0.0003] seconds, for the decimal value and for
    the double that the literal denotes. *)
Theorem read_write_with_offset (w : world) (path : string) (signal : AudioBuffer) :
  length (frames signal) = 10 -> channels signal = 2 ->
  any_clipped (frames signal) = false ->
  exists w' x1 x2 x3,
    write_signal overflow_cast w path signal 10000 false true = (w', Ok tt) /\
    read_signal resample w' path 10000 2 3 true false = Ok x1 /\
    buffer_shape x1 = [7; 2] /\
    read_signal resample w' path 10000 2 (3 # 10000) false false = Ok x2 /\
    buffer_shape x2 = [7; 2] /\
    read_signal resample w' path 10000 2
      (Binary64.to_Q Binary64.lit_0_0003) false false = Ok x3 /\
    buffer_shape x3 = [7; 2].
Proof.
  intros Hlen Hch Hclip. eexists _, _, _, _.
  split; [by apply write_signal_no_clip|].
  pose proof (read_signal_written w path signal 10000) as Hread.
  rewrite Hch in Hread. rewrite !Hread.
  rewrite offset_three_samples, offset_three_ten_thousandths, offset_double_literal.
  assert (Hshape : forall fs : list (list Q), length fs = 10 ->
            buffer_shape (mkBuffer 2 (drop 3 fs)) = [7; 2]).
  { intros fs Hfs. unfold buffer_shape. cbn [frames channels].
    by rewrite length_drop, Hfs. }
  repeat split; try reflexivity; apply Hshape; by rewrite length_fmap.
Qed.

End WriteRead.

(** Witness of C5: the int16 case of the write/read test. *)
Lemma write_read_loop_witness :
  exists w' out,
    FileIO.write_signal FileIO.wrap16 FileIO.empty_world "test.wav"
      FileIO.mono_5 16000 false true = (w', Ok tt) /\
    FileIO.read_signal FileIO.no_resample w' "test.wav" 16000 1 0 false false
    = Ok out /\
    FileIO.buffer_shape out = [5; 1] /\
    Forall2 (Forall2 (fun x y => (Qabs (y - x) <= 1 # 16384)%Q))
      (FileIO.frames FileIO.mono_5) (FileIO.frames out).
Proof.
  apply (write_read_loop FileIO.wrap16 FileIO.no_resample FileIO.empty_world
           "test.wav" FileIO.mono_5 16000).
  - repeat constructor; vm_compute; discriminate.
  - vm_compute. reflexivity.
Defined.


(** The clip test looks at the scaled value, before rounding: a sample that
    scales to 32767.25 clips although it rounds to a 16-bit integer. *)
Lemma clip_test_before_rounding :
  FileIO.clips (131069 # 131072) = true /\
  FileIO.out_of_range (FileIO.quantize (131069 # 131072)) = false.
Proof. split; vm_compute; reflexivity. Qed.

(** Witness of C7: the offset test, every sample equal to one half. *)
Lemma read_write_with_offset_witness :
  exists w' x1 x2 x3,
    FileIO.write_signal FileIO.wrap16 FileIO.empty_world "test.wav"
      FileIO.half_10x2 10000 false true = (w', Ok tt) /\
    FileIO.read_signal FileIO.no_resample w' "test.wav" 10000 2 3 true false = Ok x1 /\
    FileIO.buffer_shape x1 = [7; 2] /\
    FileIO.read_signal FileIO.no_resample w' "test.wav" 10000 2 (3 # 10000) false false
    = Ok x2 /\
    FileIO.buffer_shape x2 = [7; 2] /\
    FileIO.read_signal FileIO.no_resample w' "test.wav" 10000 2
      (Binary64.to_Q Binary64.lit_0_0003) false false = Ok x3 /\
    FileIO.buffer_shape x3 = [7; 2].
Proof.
  apply (read_write_with_offset FileIO.wrap16 FileIO.no_resample
           FileIO.empty_world "test.wav" FileIO.half_10x2);
    vm_compute; reflexivity.
Defined.

(** ** The seconds-to-frames conversion in binary64 *)

(** In binary64 the product [0.0003 * 10000] is [2.9999999999999996]: it
    lies below 3, so a truncating conversion finds frame 2, while the
    nearest frame is 3. *)
Lemma binary64_offset_product :
  Binary64.seconds_times_rate = S754_finite false 6755399441055743 (-51) /\
  (Binary64.to_Q Binary64.seconds_times_rate < 3)%Q /\
  Qfloor (Binary64.to_Q Binary64.seconds_times_rate) = 2%Z /\
  FileIO.round_nearest (Binary64.to_Q Binary64.seconds_times_rate) = 3%Z.
Proof. repeat split; vm_compute; reflexivity. Qed.

(** * Further properties of the composer *)

(** ** Transposition *)

Section TransposeFacts.
Context {A : Type} `{Arith A}.

Lemma omap_ext_in {X Y : Type} (f g : X -> option Y) (l : list X) :
  (forall x, x ∈ l -> f x = g x) -> omap f l = omap g l.
Proof.
  intros Hfg. apply list_omap_ext, Forall_Forall2_diag, Forall_forall. exact Hfg.
Qed.

Lemma omap_fmap_compose {X Y Z : Type} (f : Y -> option Z) (g : X -> Y) (l : list X) :
  omap f (g <$> l) = omap (fun x => f (g x)) l.
Proof. induction l as [|x l IH]; [done|]. cbn. by rewrite IH. Qed.

(** Reading a list index by index gives the list back. *)
Lemma omap_lookup_seq (l : list A) : omap (fun j => l !! j) (seq 0 (length l)) = l.
Proof.
  assert (Htot : Forall (fun j => is_Some (l !! j)) (seq 0 (length l))).
  { apply Forall_forall. intros j Hj%elem_of_seq. apply lookup_lt_is_Some_2. lia. }
  apply (list_eq_same_length _ _ (length l)); [done| |].
  - by rewrite omap_total_length, length_seq.
  - intros i x y Hi Hx Hy.
    rewrite omap_total_lookup, lookup_seq_lt in Hx by done. cbn in Hx. congruence.
Qed.



(** In a rectangular array, row [i] of column [j] is column [j] of row [i]. *)
Lemma column_lookup (c : nat) (rs : list (list A)) (i j : nat) :
  wf (Nd2 c rs) -> j < c -> column rs j !! i = rs !! i ≫= (fun r => r !! j).
Proof.
  intros Hwf Hj. unfold column. apply omap_total_lookup.
  cbn in Hwf. eapply Forall_impl; [exact Hwf|]. intros r Hr. cbn in Hr.
  apply lookup_lt_is_Some_2. lia.
Qed.

Lemma length_column (c : nat) (rs : list (list A)) (j : nat) :
  wf (Nd2 c rs) -> j < c -> length (column rs j) = length rs.
Proof.
  intros Hwf Hj. unfold column. apply omap_total_length.
  cbn in Hwf. eapply Forall_impl; [exact Hwf|]. intros r Hr. cbn in Hr.
  apply lookup_lt_is_Some_2. lia.
Qed.

Lemma wf_transpose (c : nat) (rs : list (list A)) :
  wf (Nd2 c rs) -> wf (transpose (Nd2 c rs)).
Proof.
  intros Hwf. cbn. apply Forall_fmap, Forall_forall. intros j Hj%elem_of_seq. cbn.
  apply (length_column c); [done | lia].
Qed.

(** Transposing a rectangular array twice gives it back. *)
Lemma transpose_involutive (c : nat) (rs : list (list A)) :
  wf (Nd2 c rs) -> transpose (transpose (Nd2 c rs)) = Nd2 c rs.
Proof.
  intros Hwf. cbn. rewrite length_fmap, length_seq. f_equal.
  apply (list_eq_same_length _ _ (length rs)); [done| |].
  - by rewrite length_fmap, length_seq.
  - intros i x r Hi Hx Hr.
    rewrite list_lookup_fmap, lookup_seq_lt in Hx by done. cbn in Hx.
    injection Hx as <-. unfold column at 1.
    rewrite omap_fmap_compose.
    assert (Hlen : length r = c).
    { cbn in Hwf. rewrite Forall_forall in Hwf. apply Hwf.
      eapply list_elem_of_lookup_2, Hr. }
    rewrite <- (omap_lookup_seq r), Hlen at 1.
    apply omap_ext_in. intros j Hj%elem_of_seq. cbn.
    rewrite (column_lookup c) by (done || lia). by rewrite Hr.
Qed.

End TransposeFacts.

(** ** Loudness scaler: what a successful call returns *)

Section ScaleSignalValues.
Import CarSceneAcoustics.
Context {A : Type} `{Arith A} `{Collaborators A}.

(** The call on two 2-D arrays, once both are oriented. *)
Lemma scale_signal_to_snr_oriented (self : t) (cs : nat) (rs : list (list A))
    (cr : nat) (rr : list (list A)) (snr : A) (ref' sig' : ndarray A) :
  orient (shape (Nd2 cr rr)) (Nd2 cr rr) = Ok ref' ->
  orient (shape (Nd2 cs rs)) (Nd2 cs rs) = Ok sig' ->
  scale_signal_to_snr self (Nd2 cs rs) (Some (Nd2 cr rr)) snr
  = (try! ref_signal_lufs := integrated_loudness (loudness_meter self) ref' in
     try! signal_lufs := integrated_loudness (loudness_meter self) sig' in
     Ok (transpose (normalize_loudness sig' signal_lufs (add ref_signal_lufs snr)))).
Proof.
  intros Hr Hs. unfold scale_signal_to_snr. cbn [attr_shape Py.bind].
  rewrite Hr. cbn [Py.bind]. rewrite Hs. reflexivity.
Qed.

(** The heuristic picks the same array for a rectangular, non-square array
    and for its transpose. *)
Lemma orient_transpose (c : nat) (rs : list (list A)) :
  wf (Nd2 c rs) -> length rs <> c ->
  orient (shape (transpose (Nd2 c rs))) (transpose (Nd2 c rs))
  = orient (shape (Nd2 c rs)) (Nd2 c rs).
Proof.
  intros Hwf Hne.
  pose proof (transpose_involutive c rs Hwf) as Hinv.
  cbn [transpose] in *. rewrite !orient_2d. cbn [transpose].
  rewrite !length_fmap, !length_seq in *.
  destruct (Nat.ltb_spec c (length rs)), (Nat.ltb_spec (length rs) c);
    try lia.
  - by rewrite Hinv.
  - reflexivity.
Qed.



(** X3: for rectangular, non-square arrays the call does not see the
    orientation of its arguments: transposing the signal, the reference or
    both gives the same outcome, result or exception. *)
Theorem scale_signal_to_snr_orientation_blind (self : t) (cs : nat)
    (rs : list (list A)) (cr : nat) (rr : list (list A)) (snr : A) :
  wf (Nd2 cs rs) -> wf (Nd2 cr rr) -> length rs <> cs -> length rr <> cr ->
  scale_signal_to_snr self (transpose (Nd2 cs rs)) (Some (Nd2 cr rr)) snr
  = scale_signal_to_snr self (Nd2 cs rs) (Some (Nd2 cr rr)) snr /\
  scale_signal_to_snr self (Nd2 cs rs) (Some (transpose (Nd2 cr rr))) snr
  = scale_signal_to_snr self (Nd2 cs rs) (Some (Nd2 cr rr)) snr /\
  scale_signal_to_snr self (transpose (Nd2 cs rs)) (Some (transpose (Nd2 cr rr))) snr
  = scale_signal_to_snr self (Nd2 cs rs) (Some (Nd2 cr rr)) snr.
Proof.
  intros Hws Hwr Hns Hnr.
  pose proof (orient_transpose cs rs Hws Hns) as Es.
  pose proof (orient_transpose cr rr Hwr Hnr) as Er.
  rewrite (scale_signal_to_snr_oriented self cs rs cr rr snr _ _
             (orient_2d cr rr) (orient_2d cs rs)).
  rewrite orient_2d in Es, Er. cbn [transpose] in *.
  repeat split; by apply scale_signal_to_snr_oriented.
Qed.

End ScaleSignalValues.



(** Witness: the 3x2 buffers and their transposes. *)
Lemma scale_signal_to_snr_orientation_blind_witness :
  CarSceneAcoustics.scale_signal_to_snr Bench.bare
    (transpose Bench.signal_3x2) (Some Bench.signal_3x2) 0%Q
  = CarSceneAcoustics.scale_signal_to_snr Bench.bare
      Bench.signal_3x2 (Some Bench.signal_3x2) 0%Q /\
  CarSceneAcoustics.scale_signal_to_snr Bench.bare
    Bench.signal_3x2 (Some (transpose Bench.signal_3x2)) 0%Q
  = CarSceneAcoustics.scale_signal_to_snr Bench.bare
      Bench.signal_3x2 (Some Bench.signal_3x2) 0%Q /\
  CarSceneAcoustics.scale_signal_to_snr Bench.bare
    (transpose Bench.signal_3x2) (Some (transpose Bench.signal_3x2)) 0%Q
  = CarSceneAcoustics.scale_signal_to_snr Bench.bare
      Bench.signal_3x2 (Some Bench.signal_3x2) 0%Q.
Proof.
  apply (scale_signal_to_snr_orientation_blind Bench.bare
           2 [[1; 2]; [3; 4]; [5; 6]]%Q 2 [[1; 2]; [3; 4]; [5; 6]]%Q 0%Q).
  - repeat constructor.
  - repeat constructor.
  - simpl. lia.
  - simpl. lia.
Defined.

(** ** Signal mixer: broadcasting, mismatches and symmetry *)

Section AddTwoSignalsMore.
Import CarSceneAcoustics.
Context {A : Type} `{Arith A}.

Lemma broadcast_dim_comm (m n : nat) : broadcast_dim m n = broadcast_dim n m.
Proof.
  unfold broadcast_dim.
  destruct (Nat.eqb_spec m n) as [->|Hmn].
  - by rewrite Nat.eqb_refl.
  - destruct (Nat.eqb_spec n m) as [->|_]; [done|].
    destruct (Nat.eqb_spec m 1) as [->|], (Nat.eqb_spec n 1) as [->|]; done.
Qed.

Lemma broadcast_dim_one_l (n : nat) : broadcast_dim 1 n = Ok n.
Proof.
  unfold broadcast_dim. destruct (Nat.eqb_spec 1 n) as [<-|]; done.
Qed.

Lemma broadcast_dim_mismatch (m n : nat) :
  m <> n -> m <> 1 -> n <> 1 -> broadcast_dim m n = Raise ValueError.
Proof.
  intros Hmn Hm Hn. unfold broadcast_dim.
  destruct (Nat.eqb_spec m n), (Nat.eqb_spec m 1), (Nat.eqb_spec n 1); done.
Qed.

(** Array addition is symmetric when sample addition is. *)
Lemma add2_comm (a b : ndarray A) :
  (forall x y : A, add x y = add y x) -> add2 a b = add2 b a.
Proof.
  intros Hcomm. destruct a as [da|ca ra], b as [db|cb rb]; try done.
  unfold add2. rewrite (broadcast_dim_comm cb ca).
  destruct (broadcast_dim ca cb) as [c|e]; [|done]. cbn [Py.bind].
  rewrite (broadcast_dim_comm (length rb) (length ra)).
  destruct (broadcast_dim (length ra) (length rb)) as [r|e]; [|done].
  cbn [Py.bind]. do 2 f_equal.
  apply list_fmap_ext. intros _ i _. apply omap_ext_in. intros j _.
  destruct (get2 (Nd2 ca ra) _ _), (get2 (Nd2 cb rb) _ _); cbn; try done.
  by rewrite Hcomm.
Qed.

(** X4: the mix does not depend on the order of its arguments, result or
    exception, when the addition of samples is commutative. *)
Theorem add_two_signals_comm (signal1 signal2 : ndarray A) :
  (forall x y : A, add x y = add y x) ->
  add_two_signals signal1 signal2 = add_two_signals signal2 signal1.
Proof.
  intros Hcomm. unfold add_two_signals.
  destruct signal1 as [d1|c1 rs1], signal2 as [d2|c2 rs2]; try done.
  cbn -[add2 Nat.min]. rewrite (Nat.min_comm c2 c1). by apply add2_comm.
Qed.

(** X5: two 2-D buffers whose channel counts differ, neither being 1, cannot be
    mixed: [ValueError], whatever their lengths. *)
Theorem add_two_signals_channel_mismatch (c1 c2 : nat) (rs1 rs2 : list (list A)) :
  length rs1 <> length rs2 -> length rs1 <> 1 -> length rs2 <> 1 ->
  add_two_signals (Nd2 c1 rs1) (Nd2 c2 rs2) = Raise ValueError.
Proof.
  intros Hne H1 H2. unfold add_two_signals. cbn.
  replace (min (min c1 c2) c1) with (min c1 c2) by lia.
  replace (min (min c1 c2) c2) with (min c1 c2) by lia.
  rewrite broadcast_dim_same. cbn [Py.bind].
  rewrite !length_fmap, broadcast_dim_mismatch by done. reflexivity.
Qed.

(** X6: a one-channel buffer is broadcast over the channels of the other: the
    result has the other's channel count, the shorter sample count, and
    element [[c][i]] is [a[0][i] + b[c][i]]. *)
Theorem add_two_signals_mono_broadcast (c1 c2 : nat) (r1 : list A)
    (rs2 : list (list A)) :
  length r1 = c1 -> wf (Nd2 c2 rs2) ->
  exists out,
    add_two_signals (Nd2 c1 [r1]) (Nd2 c2 rs2) = Ok out /\
    wf out /\
    shape out = [length rs2; min c1 c2] /\
    forall ch i, ch < length rs2 -> i < min c1 c2 ->
      exists x y,
        r1 !! i = Some x /\
        get2 (Nd2 c2 rs2) ch i = Some y /\
        get2 out ch i = Some (add x y).
Proof.
  intros Hr1 Hw2. unfold add_two_signals. cbn.
  set (m := min c1 c2).
  replace (min m c1) with m by lia. replace (min m c2) with m by lia.
  rewrite broadcast_dim_same. cbn [Py.bind].
  rewrite length_fmap, broadcast_dim_one_l. cbn [Py.bind].
  eexists. split; [reflexivity|].
  set (cell := fun i j : nat =>
    x ← get2 (Nd2 m [take m r1]) (bidx 1 i) (bidx m j);
    y ← get2 (Nd2 m (take m <$> rs2)) (bidx (length rs2) i) (bidx m j);
    Some (add x y)).
  assert (Hcell : forall ch i, ch < length rs2 -> i < m ->
            exists x y, r1 !! i = Some x /\
                        get2 (Nd2 c2 rs2) ch i = Some y /\
                        cell ch i = Some (add x y)).
  { intros ch i Hch Hi. unfold cell. rewrite !bidx_lt by done.
    change (bidx 1 ch) with 0.
    destruct (lookup_lt_is_Some_2 r1 i ltac:(lia)) as [x Hx].
    destruct (get2_in_shape c2 rs2 ch i Hw2 Hch ltac:(lia)) as [y Hy].
    exists x, y. split; [done|]. split; [done|].
    pose proof (get2_take_cols c2 m rs2 ch i Hi) as E.
    replace (min m c2) with m in E by lia. rewrite E, Hy.
    cbn. rewrite lookup_take_lt, Hx by done. done. }
  assert (Htot : forall ch, ch < length rs2 ->
            Forall (fun j => is_Some (cell ch j)) (seq 0 m)).
  { intros ch Hch. apply Forall_forall. intros j Hj%elem_of_seq.
    destruct (Hcell ch j Hch ltac:(lia)) as (x & y & _ & _ & ->). eauto. }
  split; [|split].
  - cbn. apply Forall_fmap, Forall_forall. intros ch Hch%elem_of_seq. cbn.
    rewrite omap_total_length by (apply Htot; lia). by rewrite length_seq.
  - cbn. by rewrite length_fmap, length_seq.
  - intros ch i Hch Hi.
    destruct (Hcell ch i Hch Hi) as (x & y & Hx & Hy & Hc).
    exists x, y. split; [done|]. split; [done|].
    cbn [get2]. rewrite list_lookup_fmap, lookup_seq_lt by done. cbn.
    rewrite omap_total_lookup by (apply Htot; lia).
    rewrite lookup_seq_lt by done. cbn. exact Hc.
Qed.

End AddTwoSignalsMore.

(** Witness: a 2x3 and a 2x2 buffer over the rationals, in both orders. *)
Lemma add_two_signals_comm_witness :
  CarSceneAcoustics.add_two_signals (Nd2 3 [[1; 2; 3]; [4; 5; 6]]%Q)
    (Nd2 2 [[10; 20]; [30; 40]]%Q)
  = CarSceneAcoustics.add_two_signals (Nd2 2 [[10; 20]; [30; 40]]%Q)
      (Nd2 3 [[1; 2; 3]; [4; 5; 6]]%Q).
Proof.
  apply (add_two_signals_comm (Nd2 3 [[1; 2; 3]; [4; 5; 6]]%Q)
           (Nd2 2 [[10; 20]; [30; 40]]%Q)).
  intros x y. cbn. apply Qred_complete, Qplus_comm.
Defined.

(** Witness: two channels against three. *)
Lemma add_two_signals_channel_mismatch_witness :
  CarSceneAcoustics.add_two_signals (Nd2 2 [[1; 2]; [3; 4]]%Q)
    (Nd2 2 [[1; 2]; [3; 4]; [5; 6]]%Q) = Raise ValueError.
Proof.
  apply (add_two_signals_channel_mismatch 2 2 [[1; 2]; [3; 4]]%Q
           [[1; 2]; [3; 4]; [5; 6]]%Q); simpl; lia.
Defined.

(** Witness: one channel of three samples over two channels of five. *)
Lemma add_two_signals_mono_broadcast_witness :
  exists out,
    CarSceneAcoustics.add_two_signals (Nd2 3 [[1; 2; 3]]%Q)
      (Nd2 5 [[10; 20; 30; 40; 50]; [60; 70; 80; 90; 100]]%Q) = Ok out /\
    wf out /\
    shape out = [2; 3] /\
    forall ch i, ch < 2 -> i < 3 ->
      exists x y,
        [1; 2; 3]%Q !! i = Some x /\
        get2 (Nd2 5 [[10; 20; 30; 40; 50]; [60; 70; 80; 90; 100]]%Q) ch i = Some y /\
        get2 out ch i = Some (add x y).
Proof.
  apply (add_two_signals_mono_broadcast 3 5 [1; 2; 3]%Q
           [[10; 20; 30; 40; 50]; [60; 70; 80; 90; 100]]%Q).
  - reflexivity.
  - repeat constructor.
Defined.

(** ** Spatialisers: row counts, missing keys and the cabin filters *)

Section SpatialisersMore.
Import CarSceneAcoustics.
Context {A : Type} `{Arith A} `{Collaborators A}.

Lemma dict_get_missing {V : Type} (d : gmap string V) (key : string) :
  d !! key = None -> dict_get d key = Raise KeyError.
Proof. unfold dict_get. by intros ->. Qed.

Lemma dict_get_present {V : Type} (d : gmap string V) (key : string) (v : V) :
  d !! key = Some v -> dict_get d key = Ok v.
Proof. unfold dict_get. by intros ->. Qed.

(** In-place addition of two filtered rows of one length succeeds. *)
Lemma iadd1_fir (u : list A) (b x : list A) :
  length u = length x ->
  exists w, iadd1 u (fir b x) = Ok w /\ length w = length x.
Proof.
  intros Hlen.
  destruct (iadd1_same_length u (fir b x)) as (w & Hw & Hl & _).
  - by rewrite length_fir.
  - exists w. split; [done | congruence].
Qed.

(** With six non-empty responses in the dict, the first three rows of a
    rectangular buffer with at least one sample are spatialised into a 2xN
    buffer. *)
Lemma add_anechoic_hrtf_three_rows (self : t) (N : nat)
    (r0 r1 r2 : list A) (rest : list (list A)) :
  (forall key, key ∈ ANECHOIC_HRTF.*1 ->
     exists h, hrir_values self !! key = Some h /\ h <> []) ->
  0 < N -> length r0 = N -> length r1 = N -> length r2 = N ->
  exists out_left our_right,
    add_anechoic_hrtf self (Nd2 N (r0 :: r1 :: r2 :: rest))
    = Ok (Nd2 N [out_left; our_right]) /\
    length out_left = N /\ length our_right = N.
Proof.
  intros Hkeys HN L0 L1 L2. unfold add_anechoic_hrtf.
  destruct (Hkeys "000_left") as (h0l & E0l & N0l); [cbn; repeat constructor|].
  destruct (Hkeys "000_right") as (h0r & E0r & N0r); [cbn; repeat constructor|].
  destruct (Hkeys "m90_left") as (hml & Eml & Nml); [cbn; repeat constructor|].
  destruct (Hkeys "m90_right") as (hmr & Emr & Nmr); [cbn; repeat constructor|].
  destruct (Hkeys "p90_left") as (hpl & Epl & Npl); [cbn; repeat constructor|].
  destruct (Hkeys "p90_right") as (hpr & Epr & Npr); [cbn; repeat constructor|].
  rewrite (dict_get_present _ _ _ E0l), (dict_get_present _ _ _ E0r),
    (dict_get_present _ _ _ Eml), (dict_get_present _ _ _ Emr),
    (dict_get_present _ _ _ Epl), (dict_get_present _ _ _ Epr).
  cbn [Py.bind row lookup list_lookup].
  rewrite (lfilter_ok h0l r0), (lfilter_ok h0r r0), (lfilter_ok hml r1),
    (lfilter_ok hmr r1), (lfilter_ok hpl r2), (lfilter_ok hpr r2) by (done || lia).
  cbn [Py.bind].
  destruct (iadd1_fir (fir h0l r0) hml r1) as (l1 & -> & Hl1);
    [rewrite length_fir; congruence|].
  destruct (iadd1_fir (fir h0r r0) hmr r1) as (q1 & -> & Hq1);
    [rewrite length_fir; congruence|].
  cbn [Py.bind].
  destruct (iadd1_fir l1 hpl r2) as (l2 & -> & Hl2); [congruence|].
  destruct (iadd1_fir q1 hpr r2) as (q2 & -> & Hq2); [congruence|].
  cbn [Py.bind].
  exists l2, q2. unfold stack2.
  replace (length q2) with (length l2) by congruence.
  rewrite Nat.eqb_refl. repeat split; congruence.
Qed.

(** X7: a rectangular noise buffer with fewer than three rows, each with at
    least one sample, is rejected with [IndexError], even when all six
    responses are loaded and non-empty. *)
Theorem add_anechoic_hrtf_too_few_rows (self : t) (N : nat) (rs : list (list A)) :
  (forall key, key ∈ ANECHOIC_HRTF.*1 ->
     exists h, hrir_values self !! key = Some h /\ h <> []) ->
  0 < N -> wf (Nd2 N rs) -> length rs < 3 ->
  add_anechoic_hrtf self (Nd2 N rs) = Raise IndexError.
Proof.
  intros Hkeys HN Hwf Hlen. unfold add_anechoic_hrtf.
  destruct (Hkeys "000_left") as (h0l & E0l & N0l); [cbn; repeat constructor|].
  destruct (Hkeys "000_right") as (h0r & E0r & N0r); [cbn; repeat constructor|].
  destruct (Hkeys "m90_left") as (hml & Eml & Nml); [cbn; repeat constructor|].
  destruct (Hkeys "m90_right") as (hmr & Emr & Nmr); [cbn; repeat constructor|].
  destruct (Hkeys "p90_left") as (hpl & Epl & Npl); [cbn; repeat constructor|].
  rewrite (dict_get_present _ _ _ E0l), (dict_get_present _ _ _ E0r),
    (dict_get_present _ _ _ Eml), (dict_get_present _ _ _ Emr),
    (dict_get_present _ _ _ Epl).
  destruct rs as [|r0 [|r1 [|r2 rest]]]; cbn in Hlen; try lia;
    cbn [Py.bind row lookup list_lookup]; try reflexivity.
  - apply Forall_cons in Hwf as [L0 _].
    rewrite (lfilter_ok h0l r0), (lfilter_ok h0r r0) by (done || lia).
    reflexivity.
  - apply Forall_cons in Hwf as [L0 [L1 _]%Forall_cons].
    rewrite (lfilter_ok h0l r0), (lfilter_ok h0r r0), (lfilter_ok hml r1),
      (lfilter_ok hmr r1) by (done || lia).
    cbn [Py.bind].
    destruct (iadd1_fir (fir h0l r0) hml r1) as (l1 & -> & _);
      [rewrite length_fir; congruence|].
    destruct (iadd1_fir (fir h0r r0) hmr r1) as (q1 & -> & _);
      [rewrite length_fir; congruence|].
    reflexivity.
Qed.

Lemma add_anechoic_hrtf_key_error (self : t) (N : nat) (rs : list (list A))
    (key : string) :
  key ∈ ANECHOIC_HRTF.*1 -> hrir_values self !! key = None ->
  (forall k h, hrir_values self !! k = Some h -> h <> []) ->
  0 < N -> wf (Nd2 N rs) -> 3 <= length rs ->
  add_anechoic_hrtf self (Nd2 N rs) = Raise KeyError.
Proof.
  intros Hkey Hnone Hne HN Hwf Hlen.
  destruct rs as [|r0 [|r1 [|r2 rest]]]; cbn in Hlen; try lia.
  apply Forall_cons in Hwf as [L0 [L1 [L2 _]%Forall_cons]%Forall_cons].
  unfold add_anechoic_hrtf.
  destruct (hrir_values self !! "000_left") as [h0l|] eqn:E0l;
    [rewrite (dict_get_present _ _ _ E0l) | by rewrite dict_get_missing].
  cbn [Py.bind row lookup list_lookup].
  rewrite (lfilter_ok h0l r0) by (eauto || lia). cbn [Py.bind].
  destruct (hrir_values self !! "000_right") as [h0r|] eqn:E0r;
    [rewrite (dict_get_present _ _ _ E0r) | by rewrite dict_get_missing].
  cbn [Py.bind].
  rewrite (lfilter_ok h0r r0) by (eauto || lia). cbn [Py.bind].
  destruct (hrir_values self !! "m90_left") as [hml|] eqn:Eml;
    [rewrite (dict_get_present _ _ _ Eml) | by rewrite dict_get_missing].
  cbn [Py.bind].
  rewrite (lfilter_ok hml r1) by (eauto || lia). cbn [Py.bind].
  destruct (iadd1_fir (fir h0l r0) hml r1) as (l1 & -> & Hl1);
    [rewrite length_fir; congruence|].
  cbn [Py.bind].
  destruct (hrir_values self !! "m90_right") as [hmr|] eqn:Emr;
    [rewrite (dict_get_present _ _ _ Emr) | by rewrite dict_get_missing].
  cbn [Py.bind].
  rewrite (lfilter_ok hmr r1) by (eauto || lia). cbn [Py.bind].
  destruct (iadd1_fir (fir h0r r0) hmr r1) as (q1 & -> & Hq1);
    [rewrite length_fir; congruence|].
  cbn [Py.bind].
  destruct (hrir_values self !! "p90_left") as [hpl|] eqn:Epl;
    [rewrite (dict_get_present _ _ _ Epl) | by rewrite dict_get_missing].
  cbn [Py.bind].
  rewrite (lfilter_ok hpl r2) by (eauto || lia). cbn [Py.bind].
  destruct (iadd1_fir l1 hpl r2) as (l2 & -> & Hl2); [congruence|].
  cbn [Py.bind].
  destruct (hrir_values self !! "p90_right") as [hpr|] eqn:Epr;
    [|by rewrite dict_get_missing].
  exfalso. cbn in Hkey.
  repeat (apply elem_of_cons in Hkey as [->|Hkey]; [congruence|]).
  by apply elem_of_nil in Hkey.
Qed.

(** X8: when one of the six responses is missing from the dict and the
    responses it holds are non-empty, spatialising a rectangular buffer of
    three rows or more with at least one sample raises [KeyError]. *)
Theorem add_anechoic_hrtf_missing_key (self : t) (N : nat) (rs : list (list A))
    (key : string) :
  key ∈ ANECHOIC_HRTF.*1 -> hrir_values self !! key = None ->
  (forall k h, hrir_values self !! k = Some h -> h <> []) ->
  0 < N -> wf (Nd2 N rs) -> 3 <= length rs ->
  add_anechoic_hrtf self (Nd2 N rs) = Raise KeyError.
Proof. apply add_anechoic_hrtf_key_error. Qed.

(** The file read for the logical key [key] of the caller's mapping. *)
Lemma read_car_hrir_ok (self : t) (hrir : gmap string string)
    (key name : string) (h : list A) :
  hrir !! key = Some name ->
  wavfile_read (path_join (car_hrtf_path self) (name +:+ ".wav")) = Ok h ->
  read_car_hrir self hrir key = Ok h.
Proof.
  intros Hk Hr. unfold read_car_hrir. by rewrite (dict_get_present _ _ _ Hk).
Qed.

Lemma add_car_hrtf_samples (self : t) (hrir : gmap string string)
    (N : nat) (s0 s1 : list A) (rest : list (list A))
    (n03l n03r n04l n04r : string) (h03l h03r h04l h04r : list A) :
  hrir !! "LSP03_CH1_Left" = Some n03l -> hrir !! "LSP03_CH1_Right" = Some n03r ->
  hrir !! "LSP04_CH1_Left" = Some n04l -> hrir !! "LSP04_CH1_Right" = Some n04r ->
  wavfile_read (path_join (car_hrtf_path self) (n03l +:+ ".wav")) = Ok h03l ->
  wavfile_read (path_join (car_hrtf_path self) (n03r +:+ ".wav")) = Ok h03r ->
  wavfile_read (path_join (car_hrtf_path self) (n04l +:+ ".wav")) = Ok h04l ->
  wavfile_read (path_join (car_hrtf_path self) (n04r +:+ ".wav")) = Ok h04r ->
  h03l <> [] -> h03r <> [] -> h04l <> [] -> h04r <> [] ->
  0 < N -> length s0 = N -> length s1 = N ->
  exists out_left out_right,
    add_car_hrtf self (Nd2 N (s0 :: s1 :: rest)) hrir
    = Ok (Nd2 N [out_left; out_right]) /\
    length out_left = N /\ length out_right = N /\
    forall n, n < N ->
      out_left !! n = Some (add (fir_sample h03l s0 n) (fir_sample h04l s1 n)) /\
      out_right !! n = Some (add (fir_sample h03r s0 n) (fir_sample h04r s1 n)).
Proof.
  intros K1 K2 K3 K4 R1 R2 R3 R4 E1 E2 E3 E4 HN L0 L1. unfold add_car_hrtf.
  rewrite (read_car_hrir_ok _ _ _ _ _ K1 R1), (read_car_hrir_ok _ _ _ _ _ K2 R2),
    (read_car_hrir_ok _ _ _ _ _ K3 R3), (read_car_hrir_ok _ _ _ _ _ K4 R4).
  cbn [Py.bind row lookup list_lookup].
  rewrite (lfilter_ok h03l s0), (lfilter_ok h03r s0), (lfilter_ok h04l s1),
    (lfilter_ok h04r s1) by (done || lia).
  cbn [Py.bind].
  destruct (iadd1_same_length (fir h03l s0) (fir h04l s1))
    as (l1 & -> & Hl1 & Hs1); [rewrite !length_fir; congruence|].
  destruct (iadd1_same_length (fir h03r s0) (fir h04r s1))
    as (q1 & -> & Hq1 & Ht1); [rewrite !length_fir; congruence|].
  cbn [Py.bind]. rewrite length_fir in Hl1, Hq1.
  assert (El : length l1 = N) by congruence.
  assert (Er : length q1 = N) by congruence.
  exists l1, q1. split.
  { unfold stack2. rewrite El, Er, Nat.eqb_refl. reflexivity. }
  split; [exact El|]. split; [exact Er|].
  intros n Hn. split.
  - apply Hs1; apply lookup_fir; lia.
  - apply Ht1; apply lookup_fir; lia.
Qed.

(** X10: the cabin spatialiser: with the four named files readable and
    non-empty and a feed of at least one sample, the first two rows of the
    feed are filtered and summed per ear into a 2xN buffer: left is the
    left-speaker row through the LSP03 left response plus the right-speaker
    row through the LSP04 left response, right likewise. *)
Theorem add_car_hrtf_sums_filtered_feeds (self : t) (hrir : gmap string string)
    (N : nat) (s0 s1 : list A) (rest : list (list A))
    (n03l n03r n04l n04r : string) (h03l h03r h04l h04r : list A) :
  hrir !! "LSP03_CH1_Left" = Some n03l -> hrir !! "LSP03_CH1_Right" = Some n03r ->
  hrir !! "LSP04_CH1_Left" = Some n04l -> hrir !! "LSP04_CH1_Right" = Some n04r ->
  wavfile_read (path_join (car_hrtf_path self) (n03l +:+ ".wav")) = Ok h03l ->
  wavfile_read (path_join (car_hrtf_path self) (n03r +:+ ".wav")) = Ok h03r ->
  wavfile_read (path_join (car_hrtf_path self) (n04l +:+ ".wav")) = Ok h04l ->
  wavfile_read (path_join (car_hrtf_path self) (n04r +:+ ".wav")) = Ok h04r ->
  h03l <> [] -> h03r <> [] -> h04l <> [] -> h04r <> [] ->
  0 < N -> length s0 = N -> length s1 = N ->
  exists out_left out_right,
    add_car_hrtf self (Nd2 N (s0 :: s1 :: rest)) hrir
    = Ok (Nd2 N [out_left; out_right]) /\
    length out_left = N /\ length out_right = N /\
    forall n, n < N ->
      out_left !! n = Some (add (fir_sample h03l s0 n) (fir_sample h04l s1 n)) /\
      out_right !! n = Some (add (fir_sample h03r s0 n) (fir_sample h04r s1 n)).
Proof. apply add_car_hrtf_samples. Qed.

(** X11: when the caller's mapping lacks one of the four logical keys and the
    files of the keys it has are readable, the cabin spatialiser raises
    [KeyError], whatever the signal. *)
Theorem add_car_hrtf_missing_key (self : t) (signal : ndarray A)
    (hrir : gmap string string) (key : string) :
  key ∈ ["LSP03_CH1_Left"; "LSP03_CH1_Right"; "LSP04_CH1_Left"; "LSP04_CH1_Right"] ->
  hrir !! key = None ->
  (forall k name, hrir !! k = Some name ->
     exists h, wavfile_read (path_join (car_hrtf_path self) (name +:+ ".wav")) = Ok h) ->
  add_car_hrtf self signal hrir = Raise KeyError.
Proof.
  intros Hkey Hnone Hread. unfold add_car_hrtf.
  assert (Hstep : forall k, read_car_hrir self hrir k = Raise KeyError \/
                    exists name h, hrir !! k = Some name /\ read_car_hrir self hrir k = Ok h).
  { intros k. unfold read_car_hrir. destruct (hrir !! k) as [name|] eqn:Ek.
    - right. destruct (Hread k name Ek) as [h Hh]. exists name, h.
      by rewrite (dict_get_present _ _ _ Ek).
    - left. by rewrite dict_get_missing. }
  destruct (Hstep "LSP03_CH1_Left") as [->|(n1 & h1 & E1 & ->)]; [done|].
  cbn [Py.bind].
  destruct (Hstep "LSP03_CH1_Right") as [->|(n2 & h2 & E2 & ->)]; [done|].
  cbn [Py.bind].
  destruct (Hstep "LSP04_CH1_Left") as [->|(n3 & h3 & E3 & ->)]; [done|].
  cbn [Py.bind].
  destruct (Hstep "LSP04_CH1_Right") as [->|(n4 & h4 & E4 & ->)]; [done|].
  exfalso.
  repeat (apply elem_of_cons in Hkey as [->|Hkey]; [congruence|]).
  by apply elem_of_nil in Hkey.
Qed.

(** X12: a rectangular feed with fewer than two rows (a mono signal, say)
    of at least one sample is rejected with [IndexError] once the four
    files have been read, the two left-speaker responses being non-empty. *)
Theorem add_car_hrtf_too_few_rows (self : t) (hrir : gmap string string)
    (N : nat) (rs : list (list A))
    (n03l n03r n04l n04r : string) (h03l h03r h04l h04r : list A) :
  hrir !! "LSP03_CH1_Left" = Some n03l -> hrir !! "LSP03_CH1_Right" = Some n03r ->
  hrir !! "LSP04_CH1_Left" = Some n04l -> hrir !! "LSP04_CH1_Right" = Some n04r ->
  wavfile_read (path_join (car_hrtf_path self) (n03l +:+ ".wav")) = Ok h03l ->
  wavfile_read (path_join (car_hrtf_path self) (n03r +:+ ".wav")) = Ok h03r ->
  wavfile_read (path_join (car_hrtf_path self) (n04l +:+ ".wav")) = Ok h04l ->
  wavfile_read (path_join (car_hrtf_path self) (n04r +:+ ".wav")) = Ok h04r ->
  h03l <> [] -> h03r <> [] ->
  0 < N -> wf (Nd2 N rs) -> length rs < 2 ->
  add_car_hrtf self (Nd2 N rs) hrir = Raise IndexError.
Proof.
  intros K1 K2 K3 K4 R1 R2 R3 R4 E1 E2 HN Hwf Hlen. unfold add_car_hrtf.
  rewrite (read_car_hrir_ok _ _ _ _ _ K1 R1), (read_car_hrir_ok _ _ _ _ _ K2 R2),
    (read_car_hrir_ok _ _ _ _ _ K3 R3), (read_car_hrir_ok _ _ _ _ _ K4 R4).
  destruct rs as [|s0 [|s1 rest]]; cbn in Hlen; try lia;
    cbn [Py.bind row lookup list_lookup]; [reflexivity|].
  apply Forall_cons in Hwf as [L0 _].
  rewrite (lfilter_ok h03l s0), (lfilter_ok h03r s0) by (done || lia).
  reflexivity.
Qed.

End SpatialisersMore.

(** ** Loading and construction: success, failure and what follows *)

Section ConstructionMore.
Import CarSceneAcoustics.
Context {A : Type} `{Arith A} `{Collaborators A}.

(** The loading loop stops at the first unreadable file with the reader's
    error; the dict then holds the entries of the files before it. *)
Lemma preload_loop_fail (dir : string) (pre : list (string * string))
    (k it : string) (post : list (string * string))
    (d : gmap string (list A)) (e : exn) :
  Forall (fun ki => exists v, wavfile_read (path_join dir ki.2) = Ok v) pre ->
  wavfile_read (path_join dir it) = Raise e ->
  exists d',
    preload_loop dir (pre ++ (k, it) :: post) d = (d', Raise e) /\
    dom d' = dom d ∪ list_to_set pre.*1.
Proof.
  intros Hpre Hfail. revert d.
  induction Hpre as [|[k0 it0] pre [v Hv] _ IH]; intros d.
  - cbn. rewrite Hfail. exists d. split; [done|].
    by rewrite (right_id_L ∅ (∪)).
  - cbn [app preload_loop]. cbn in Hv. rewrite Hv.
    destruct (IH (<[k0 := v]> d)) as (d' & -> & Hdom).
    exists d'. split; [done|]. rewrite Hdom, dom_insert_L. cbn.
    by rewrite (comm_L (∪) {[k0]} (dom d)), (assoc_L (∪)).
Qed.

Lemma ANECHOIC_HRTF_NoDup : NoDup ANECHOIC_HRTF.*1.
Proof. apply (bool_decide_unpack (NoDup ANECHOIC_HRTF.*1)). vm_compute. exact I. Qed.

(** A failed load: the error, the keys left in the dict, and the failing
    key among the missing ones. *)
Lemma preload_failure_state (self : t) (dir : string)
    (pre : list (string * string)) (k it : string)
    (post : list (string * string)) (e : exn) :
  ANECHOIC_HRTF = pre ++ (k, it) :: post ->
  Forall (fun ki => exists v,
            wavfile_read (path_join (anechoic_dir dir) ki.2) = Ok v) pre ->
  wavfile_read (path_join (anechoic_dir dir) it) = Raise e ->
  exists self',
    preload_anechoic_hrtf self dir = (self', Raise e) /\
    dom (hrir_values self') = list_to_set pre.*1 /\
    hrir_values self' !! k = None /\
    track_duration self' = track_duration self /\
    hrtf_dir self' = hrtf_dir self.
Proof.
  intros Htab Hpre Hfail. unfold preload_anechoic_hrtf. rewrite Htab.
  destruct (preload_loop_fail (anechoic_dir dir) pre k it post ∅ e Hpre Hfail)
    as (d' & -> & Hdom).
  eexists. split; [reflexivity|]. cbn.
  rewrite dom_empty_L, (left_id_L ∅ (∪)) in Hdom.
  repeat split; [done|].
  apply not_elem_of_dom. rewrite Hdom.
  pose proof ANECHOIC_HRTF_NoDup as Hnd. rewrite Htab, fmap_app in Hnd.
  apply NoDup_app in Hnd as (_ & Hdisj & _).
  intros Hin%elem_of_list_to_set. apply (Hdisj k Hin). cbn. left.
Qed.

(** X14: a reload that cannot read one of the files raises the reader's error
    and leaves in the dict only the responses of the files before it in the
    table: the responses loaded earlier are gone. *)
Theorem preload_anechoic_hrtf_failure (self : t) (dir : string)
    (pre : list (string * string)) (k it : string)
    (post : list (string * string)) (e : exn) :
  ANECHOIC_HRTF = pre ++ (k, it) :: post ->
  Forall (fun ki => exists v,
            wavfile_read (path_join (anechoic_dir dir) ki.2) = Ok v) pre ->
  wavfile_read (path_join (anechoic_dir dir) it) = Raise e ->
  exists self',
    preload_anechoic_hrtf self dir = (self', Raise e) /\
    dom (hrir_values self') = list_to_set pre.*1 /\
    hrir_values self' !! k = None.
Proof.
  intros Htab Hpre Hfail.
  destruct (preload_failure_state self dir pre k it post e Htab Hpre Hfail)
    as (self' & ? & ? & ? & _).
  by exists self'.
Qed.

(** Every response the loading loop stores comes from the reader. *)
Lemma preload_loop_values (P : list A -> Prop) (dir : string)
    (items : list (string * string)) (d d' : gmap string (list A))
    (r : result unit) :
  (forall path h, wavfile_read path = Ok h -> P h) ->
  (forall k h, d !! k = Some h -> P h) ->
  preload_loop dir items d = (d', r) ->
  forall k h, d' !! k = Some h -> P h.
Proof.
  intros Hread. revert d.
  induction items as [|[k0 it0] items IH]; intros d Hd Hrun.
  - injection Hrun as <- _. exact Hd.
  - cbn [preload_loop] in Hrun.
    destruct (wavfile_read (path_join dir it0)) as [v|e] eqn:Hv.
    + apply (IH (<[k0 := v]> d)); [|exact Hrun].
      intros k h. destruct (decide (k0 = k)) as [->|Hne].
      * rewrite lookup_insert_eq. intros [= <-]. by eapply Hread.
      * rewrite lookup_insert_ne by done. apply Hd.
    + injection Hrun as <- _. exact Hd.
Qed.

(** After a load, successful or not, the dict holds only what the reader
    returned. *)
Lemma preload_values (P : list A -> Prop) (self : t) (dir : string) :
  (forall path h, wavfile_read path = Ok h -> P h) ->
  forall k h,
    hrir_values (fst (preload_anechoic_hrtf self dir)) !! k = Some h -> P h.
Proof.
  intros Hread k h. unfold preload_anechoic_hrtf.
  destruct (preload_loop (anechoic_dir dir) ANECHOIC_HRTF ∅) as [d r] eqn:Hloop.
  cbn. eapply (preload_loop_values P); [exact Hread | | exact Hloop].
  intros k' h'. by rewrite lookup_empty.
Qed.

(** X15: after a failed reload the anechoic spatialiser raises [KeyError] on
    every rectangular buffer of three rows or more with at least one
    sample, also on an instance that worked before; the response files
    that can be read are taken to hold at least one sample. *)
Theorem failed_reload_disables_spatialiser (self : t) (dir : string)
    (pre : list (string * string)) (k it : string)
    (post : list (string * string)) (e : exn) (N : nat) (rs : list (list A)) :
  ANECHOIC_HRTF = pre ++ (k, it) :: post ->
  Forall (fun ki => exists v,
            wavfile_read (path_join (anechoic_dir dir) ki.2) = Ok v) pre ->
  wavfile_read (path_join (anechoic_dir dir) it) = Raise e ->
  (forall path h, wavfile_read path = Ok h -> h <> []) ->
  0 < N -> wf (Nd2 N rs) -> 3 <= length rs ->
  add_anechoic_hrtf (fst (preload_anechoic_hrtf self dir)) (Nd2 N rs)
  = Raise KeyError.
Proof.
  intros Htab Hpre Hfail Hread HN Hwf Hlen.
  pose proof (preload_values (fun h => h <> []) self dir Hread) as Hne.
  destruct (preload_failure_state self dir pre k it post e Htab Hpre Hfail)
    as (self' & Hrun & _ & Hk & _).
  rewrite Hrun in *. cbn [fst] in *.
  apply (add_anechoic_hrtf_key_error self' N rs k); try done.
  rewrite Htab, fmap_app. apply elem_of_app. right. cbn. left.
Qed.


(** X13: a successful load leaves exactly the six keys of the table in the
    dict, each with the samples read from its file under
    [<dir>/Anechoic/audio]; whatever the dict held before is gone. *)
Theorem preload_anechoic_hrtf_success (self self' : t) (dir : string) :
  preload_anechoic_hrtf self dir = (self', Ok tt) ->
  dom (hrir_values self') = list_to_set ANECHOIC_HRTF.*1 /\
  forall key item, (key, item) ∈ ANECHOIC_HRTF ->
    exists v, wavfile_read (path_join (anechoic_dir dir) item) = Ok v /\
              hrir_values self' !! key = Some v.
Proof.
  unfold preload_anechoic_hrtf. intros Hrun.
  destruct (preload_loop (anechoic_dir dir) ANECHOIC_HRTF ∅) as [d r] eqn:Hloop.
  injection Hrun as <- ->.
  change (hrir_values (set_hrir_values self d)) with d.
  destruct (preload_loop_ok _ _ _ _ ANECHOIC_HRTF_NoDup Hloop) as [Hin Hout].
  split; [|exact Hin].
  apply set_eq. intros key. rewrite elem_of_dom, elem_of_list_to_set. split.
  - intros Hsome. destruct (decide (key ∈ ANECHOIC_HRTF.*1)) as [|Hnot]; [done|].
    rewrite (Hout key Hnot), lookup_empty in Hsome. by destruct Hsome.
  - intros ((k' & item) & -> & Hmem)%list_elem_of_fmap.
    destruct (Hin k' item Hmem) as (v & _ & Hv). cbn. rewrite Hv. eauto.
Qed.

(** X17: a constructed instance spatialises every rectangular noise buffer of
    three rows or more with at least one sample into a buffer of shape
    [(2, N)], the response files that can be read holding at least one
    sample. *)
Theorem init_then_add_anechoic_hrtf (d sr : Z) (dir : string) (cn cc : Config)
    (extend_noise : A) (self : t) (N : nat) (rs : list (list A)) :
  __init__ d sr dir cn cc extend_noise = Ok self ->
  (forall path h, wavfile_read path = Ok h -> h <> []) ->
  0 < N -> wf (Nd2 N rs) -> 3 <= length rs ->
  exists out,
    add_anechoic_hrtf self (Nd2 N rs) = Ok out /\ wf out /\ shape out = [2; N].
Proof.
  intros Hinit Hread HN Hwf Hlen.
  destruct rs as [|r0 [|r1 [|r2 rest]]]; cbn in Hlen; try lia.
  apply Forall_cons in Hwf as [L0 [L1 [L2 _]%Forall_cons]%Forall_cons].
  destruct (add_anechoic_hrtf_three_rows self N r0 r1 r2 rest)
    as (l & q & -> & Hl & Hq); try done.
  - intros key ((k' & item) & -> & Hmem)%list_elem_of_fmap.
    destruct (init_preloaded _ _ _ _ _ _ _ Hinit k' item Hmem) as (h & Hh & Hk).
    exists h. split; [exact Hk | by eapply Hread].
  - eexists. split; [reflexivity|]. split; [|done].
    cbn. repeat constructor; done.
Qed.

End ConstructionMore.

(** ** Witnesses on the concrete collaborators *)

Lemma bench_loaded_keys (key : string) :
  key ∈ CarSceneAcoustics.ANECHOIC_HRTF.*1 ->
  exists h, CarSceneAcoustics.hrir_values Bench.loaded !! key = Some h /\ h <> [].
Proof.
  intros Hkey. cbn in Hkey.
  repeat (apply elem_of_cons in Hkey as [->|Hkey];
          [eexists; split; [vm_compute; reflexivity | discriminate]|]).
  by apply elem_of_nil in Hkey.
Defined.

Lemma bench_disk_nonempty (path : string) (h : list Q) :
  Bench.disk path = Ok h -> h <> [].
Proof.
  unfold Bench.disk. repeat case_bool_decide; intros [= <-]; discriminate.
Defined.

Lemma cabin_disk_nonempty (path : string) (h : list Q) :
  Cabin.disk path = Ok h -> h <> [].
Proof.
  unfold Cabin.disk. repeat case_bool_decide; intros [= <-]; discriminate.
Defined.

(** Witness: a two-row buffer on the constructed instance. *)
Lemma add_anechoic_hrtf_too_few_rows_witness :
  CarSceneAcoustics.add_anechoic_hrtf Bench.loaded Bench.signal_2x3 = Raise IndexError.
Proof.
  apply (add_anechoic_hrtf_too_few_rows Bench.loaded 3 [[1; 3; 5]; [2; 4; 6]]%Q).
  - exact bench_loaded_keys.
  - lia.
  - repeat constructor.
  - simpl. lia.
Defined.

(** Witness: the instance with an empty dict. *)
Lemma add_anechoic_hrtf_missing_key_witness :
  CarSceneAcoustics.add_anechoic_hrtf Bench.bare Bench.noise_3x4 = Raise KeyError.
Proof.
  apply (add_anechoic_hrtf_missing_key Bench.bare 4
           [[1; 2; 3; 4]; [10; 20; 30; 40]; [100; 200; 300; 400]]%Q "000_left").
  - vm_compute. left.
  - reflexivity.
  - intros k h Hk. cbn in Hk. by rewrite lookup_empty in Hk.
  - lia.
  - repeat constructor.
  - simpl. lia.
Defined.

(** Witness: a stereo feed through the four cabin responses. *)
Lemma add_car_hrtf_sums_filtered_feeds_witness :
  exists out_left out_right,
    @CarSceneAcoustics.add_car_hrtf Q _ Cabin.collaborators
      Cabin.instance Cabin.feed_2x4 Cabin.hrir
    = Ok (Nd2 4 [out_left; out_right]) /\
    length out_left = 4 /\ length out_right = 4 /\
    forall n, n < 4 ->
      out_left !! n
      = Some (add (fir_sample [1; 0]%Q [1; 2; 3; 4]%Q n)
                  (fir_sample [0; 2]%Q [10; 20; 30; 40]%Q n)) /\
      out_right !! n
      = Some (add (fir_sample [0; 1]%Q [1; 2; 3; 4]%Q n)
                  (fir_sample [3; 0]%Q [10; 20; 30; 40]%Q n)).
Proof.
  apply (@add_car_hrtf_sums_filtered_feeds Q _ Cabin.collaborators
           Cabin.instance Cabin.hrir 4 [1; 2; 3; 4]%Q [10; 20; 30; 40]%Q []
           "HR13_E02_CH1_Left" "HR13_E02_CH1_Right"
           "HR14_E02_CH1_Left" "HR14_E02_CH1_Right"
           [1; 0]%Q [0; 1]%Q [0; 2]%Q [3; 0]%Q);
    first [ vm_compute; reflexivity | discriminate | lia ].
Defined.

(** Witness: a mapping that names only the first file. *)
Lemma add_car_hrtf_missing_key_witness :
  @CarSceneAcoustics.add_car_hrtf Q _ Cabin.collaborators
    Cabin.instance Cabin.feed_2x4 {["LSP03_CH1_Left" := "HR13_E02_CH1_Left"]}
  = Raise KeyError.
Proof.
  apply (@add_car_hrtf_missing_key Q _ Cabin.collaborators
           Cabin.instance Cabin.feed_2x4
           {["LSP03_CH1_Left" := "HR13_E02_CH1_Left"]} "LSP04_CH1_Right").
  - vm_compute. do 3 right. left.
  - reflexivity.
  - intros k name [<- <-]%lookup_singleton_Some. eexists. vm_compute. reflexivity.
Defined.

(** Witness: a mono feed. *)
Lemma add_car_hrtf_too_few_rows_witness :
  @CarSceneAcoustics.add_car_hrtf Q _ Cabin.collaborators
    Cabin.instance (Nd2 4 [[1; 2; 3; 4]]%Q) Cabin.hrir
  = Raise IndexError.
Proof.
  apply (@add_car_hrtf_too_few_rows Q _ Cabin.collaborators
           Cabin.instance Cabin.hrir 4 [[1; 2; 3; 4]]%Q
           "HR13_E02_CH1_Left" "HR13_E02_CH1_Right"
           "HR14_E02_CH1_Left" "HR14_E02_CH1_Right"
           [1; 0]%Q [0; 1]%Q [0; 2]%Q [3; 0]%Q);
    first [ vm_compute; reflexivity | discriminate | repeat constructor
          | simpl; lia ].
Defined.

Lemma cabin_first_two_readable :
  Forall (fun ki : string * string => exists v,
            @wavfile_read Q Cabin.collaborators
              (CarSceneAcoustics.path_join (CarSceneAcoustics.anechoic_dir "hrtf") ki.2)
            = Ok v)
    [("000_left", "HR36_LSP01_CH1_Left.wav"); ("000_right", "HR36_LSP01_CH1_Right.wav")].
Proof.
  apply Forall_cons. split; [eexists; vm_compute; reflexivity|].
  apply Forall_cons. split; [eexists; vm_compute; reflexivity|].
  apply Forall_nil_2.
Defined.

(** Witness: the third file of the table is missing from the disk. *)
Lemma preload_anechoic_hrtf_failure_witness :
  exists self',
    @CarSceneAcoustics.preload_anechoic_hrtf Q Cabin.collaborators
      Cabin.instance "hrtf" = (self', Raise OSError) /\
    dom (CarSceneAcoustics.hrir_values self')
    = list_to_set [("000_left", "HR36_LSP01_CH1_Left.wav");
                   ("000_right", "HR36_LSP01_CH1_Right.wav")].*1 /\
    CarSceneAcoustics.hrir_values self' !! "m90_left" = None.
Proof.
  apply (@preload_anechoic_hrtf_failure Q Cabin.collaborators
           Cabin.instance "hrtf"
           [("000_left", "HR36_LSP01_CH1_Left.wav");
            ("000_right", "HR36_LSP01_CH1_Right.wav")]
           "m90_left" "HR0_LSP01_CH1_Left.wav"
           [("m90_right", "HR0_LSP01_CH1_Right.wav");
            ("p90_left", "HR72_LSP01_CH1_Left.wav");
            ("p90_right", "HR72_LSP01_CH1_Right.wav")] OSError).
  - reflexivity.
  - exact cabin_first_two_readable.
  - vm_compute. reflexivity.
Defined.

(** Witness: an instance that held all six responses, after the failed
    reload. *)
Lemma failed_reload_disables_spatialiser_witness :
  @CarSceneAcoustics.add_anechoic_hrtf Q _ Cabin.collaborators
    (fst (@CarSceneAcoustics.preload_anechoic_hrtf Q Cabin.collaborators
            Cabin.instance "hrtf"))
    Bench.noise_3x4
  = Raise KeyError.
Proof.
  apply (@failed_reload_disables_spatialiser Q _ Cabin.collaborators
           Cabin.instance "hrtf"
           [("000_left", "HR36_LSP01_CH1_Left.wav");
            ("000_right", "HR36_LSP01_CH1_Right.wav")]
           "m90_left" "HR0_LSP01_CH1_Left.wav"
           [("m90_right", "HR0_LSP01_CH1_Right.wav");
            ("p90_left", "HR72_LSP01_CH1_Left.wav");
            ("p90_right", "HR72_LSP01_CH1_Right.wav")] OSError 4
           [[1; 2; 3; 4]; [10; 20; 30; 40]; [100; 200; 300; 400]]%Q).
  - reflexivity.
  - exact cabin_first_two_readable.
  - vm_compute. reflexivity.
  - exact cabin_disk_nonempty.
  - lia.
  - repeat constructor.
  - simpl. lia.
Defined.


(** Witness: loading into the instance with an empty dict. *)
Lemma preload_anechoic_hrtf_success_witness :
  dom (CarSceneAcoustics.hrir_values
         (fst (CarSceneAcoustics.preload_anechoic_hrtf Bench.bare "hrtf")))
  = list_to_set CarSceneAcoustics.ANECHOIC_HRTF.*1 /\
  forall key item, (key, item) ∈ CarSceneAcoustics.ANECHOIC_HRTF ->
    exists v,
      wavfile_read
        (CarSceneAcoustics.path_join (CarSceneAcoustics.anechoic_dir "hrtf") item)
      = Ok v /\
      CarSceneAcoustics.hrir_values
        (fst (CarSceneAcoustics.preload_anechoic_hrtf Bench.bare "hrtf")) !! key
      = Some v.
Proof.
  apply (preload_anechoic_hrtf_success Bench.bare
           (fst (CarSceneAcoustics.preload_anechoic_hrtf Bench.bare "hrtf")) "hrtf").
  vm_compute. reflexivity.
Defined.

(** Witness: the constructed instance on the 3x4 noise buffer. *)
Lemma init_then_add_anechoic_hrtf_witness :
  exists out,
    CarSceneAcoustics.add_anechoic_hrtf Bench.loaded Bench.noise_3x4 = Ok out /\
    wf out /\ shape out = [2; 4].
Proof.
  apply (@init_then_add_anechoic_hrtf Q _ Bench.collaborators
           10 16000 "hrtf" tt tt lit_0_2 Bench.loaded 4
           [[1; 2; 3; 4]; [10; 20; 30; 40]; [100; 200; 300; 400]]%Q).
  - vm_compute. reflexivity.
  - exact bench_disk_nonempty.
  - lia.
  - repeat constructor.
  - simpl. lia.
Defined.

(** ** Spatialising a truncated buffer *)

Section Truncation.
Import CarSceneAcoustics.
Context {A : Type} `{Arith A} `{Collaborators A}.





End Truncation.


(** ** Signal I/O layer: what a non-strict write of a clipping signal loses *)

Section NonStrict.
Import FileIO.
Variable overflow_cast : Z -> Z.
Variable resample : Z -> Z -> list (list Q) -> list (list Q).

Lemma Forall2_fmap_diag_inv {X Y : Type} (P : X -> Y -> Prop) (g : X -> Y)
    (l : list X) :
  Forall2 P l (g <$> l) -> Forall (fun x => P x (g x)) l.
Proof.
  induction l as [|x l IH]; [constructor|].
  cbn. intros [Hx Hl]%Forall2_cons. constructor; auto.
Qed.

(** A sample further than the tolerance outside [-1, 1] clips. *)
Lemma far_outside_clips (x : Q) :
  (1 + (1 # 16384) < Qabs x)%Q -> clips x = true.
Proof.
  intros Hx. unfold clips.
  change (inject_Z FULL_SCALE) with (32768 # 1)%Q.
  change (inject_Z INT16_MIN) with (-32768 # 1)%Q.
  change (inject_Z INT16_MAX) with (32767 # 1)%Q.
  apply orb_true_iff.
  destruct (Qlt_le_dec x 0) as [Hneg|Hpos].
  - rewrite Qabs_neg in Hx by lra. left. apply negb_true_iff.
    destruct (Qle_bool (-32768 # 1) (x * (32768 # 1))) eqn:E; [|done].
    apply Qle_bool_iff in E. lra.
  - rewrite Qabs_pos in Hx by lra. right. apply negb_true_iff.
    destruct (Qle_bool (x * (32768 # 1)) (32767 # 1)) eqn:E; [|done].
    apply Qle_bool_iff in E. lra.
Qed.

(** Whatever is stored is a 16-bit integer when the cast produces one. *)
Lemma to_int16_range (n : Z) :
  (forall k, (INT16_MIN <= overflow_cast k <= INT16_MAX)%Z) ->
  (INT16_MIN <= to_int16 overflow_cast n <= INT16_MAX)%Z.
Proof.
  intros Hcast. unfold to_int16.
  destruct (out_of_range n) eqn:E; [apply Hcast|].
  unfold out_of_range in E. apply orb_false_elim in E as [E1 E2].
  apply Z.ltb_ge in E1, E2. lia.
Qed.

(** A 16-bit integer decodes into [-1, 1]. *)
Lemma dequantize_range (n : Z) :
  (INT16_MIN <= n <= INT16_MAX)%Z -> (-1 <= dequantize n <= 1)%Q.
Proof.
  unfold INT16_MIN, INT16_MAX, dequantize. intros [Hlo Hhi].
  change (inject_Z FULL_SCALE) with (32768 # 1)%Q.
  unfold Qdiv. change (/ (32768 # 1))%Q with (1 # 32768)%Q.
  rewrite Zle_Qle in Hlo, Hhi.
  change (inject_Z (-32768)) with (-32768 # 1)%Q in Hlo.
  change (inject_Z 32767) with (32767 # 1)%Q in Hhi.
  split; lra.
Qed.

(** X19: a clipping signal written with [strict=False] does not read back
    within the tolerance of [1/16384] when one of its samples lies further
    than that outside [-1, 1], whatever 16-bit value the cast produces. *)
Theorem write_read_nonstrict_clipped (w : world) (path : string)
    (signal : AudioBuffer) (rate : Z) :
  (forall n, (INT16_MIN <= overflow_cast n <= INT16_MAX)%Z) ->
  (exists f x, f ∈ frames signal /\ x ∈ f /\ (1 + (1 # 16384) < Qabs x)%Q) ->
  exists w' out,
    write_signal overflow_cast w path signal rate false false = (w', Ok tt) /\
    read_signal resample w' path rate (channels signal) 0 false false = Ok out /\
    ~ Forall2 (Forall2 (fun x y => (Qabs (y - x) <= 1 # 16384)%Q))
        (frames signal) (frames out).
Proof.
  intros Hcast (f & x & Hf & Hx & Hfar).
  pose proof (far_outside_clips x Hfar) as Hclip.
  assert (Hany : any_clipped (frames signal) = true).
  { unfold any_clipped. eapply existsb_true_elem; [exact Hf|].
    eapply existsb_true_elem; [exact Hx | exact Hclip]. }
  eexists _, _. split; [unfold write_signal; rewrite Hany; reflexivity|].
  split; [apply read_signal_written|].
  rewrite offset_frames_zero, drop_0. cbn [frames].
  intros Hall%Forall2_fmap_diag_inv.
  rewrite Forall_forall in Hall. specialize (Hall f Hf). cbn beta in Hall.
  apply Forall2_fmap_diag_inv in Hall.
  rewrite Forall_forall in Hall. specialize (Hall x Hx). cbn beta in Hall.
  pose proof (dequantize_range _ (to_int16_range (quantize x) Hcast)) as [Hlo Hhi].
  apply Qabs_Qle_condition in Hall as [Ha Hb].
  destruct (Qlt_le_dec x 0) as [Hneg|Hpos].
  - rewrite Qabs_neg in Hfar by lra. lra.
  - rewrite Qabs_pos in Hfar by lra. lra.
Qed.

End NonStrict.

(** Witness: the non-strict case of the write/read test, with the sample
    1.99 and the wrapping cast. *)
Lemma write_read_nonstrict_clipped_witness :
  exists w' out,
    FileIO.write_signal FileIO.wrap16 FileIO.empty_world "test.wav"
      (FileIO.mkBuffer 1 [[1 # 10]; [-2 # 10]; [1 # 10]; [-1]; [199 # 100]]%Q)
      16000 false false = (w', Ok tt) /\
    FileIO.read_signal FileIO.no_resample w' "test.wav" 16000 1 0 false false
    = Ok out /\
    ~ Forall2 (Forall2 (fun x y => (Qabs (y - x) <= 1 # 16384)%Q))
        [[1 # 10]; [-2 # 10]; [1 # 10]; [-1]; [199 # 100]]%Q (FileIO.frames out).
Proof.
  apply (write_read_nonstrict_clipped FileIO.wrap16 FileIO.no_resample
           FileIO.empty_world "test.wav"
           (FileIO.mkBuffer 1 [[1 # 10]; [-2 # 10]; [1 # 10]; [-1]; [199 # 100]]%Q)
           16000).
  - intros n. unfold FileIO.wrap16, FileIO.INT16_MIN, FileIO.INT16_MAX.
    pose proof (Z.mod_pos_bound (n + 32768) 65536 eq_refl). lia.
  - exists [199 # 100]%Q, (199 # 100)%Q. split; [|split].
    + cbn. do 4 right. left.
    + left.
    + vm_compute. reflexivity.
Defined.

(** ** The baseline pipeline: spatialise both sources, then mix *)

Section Pipeline.
Import CarSceneAcoustics.
Context {A : Type} `{Arith A} `{Collaborators A}.

Lemma add_two_signals_same_channels_shape (c1 c2 : nat) (rs1 rs2 : list (list A)) :
  wf (Nd2 c1 rs1) -> wf (Nd2 c2 rs2) -> length rs1 = length rs2 ->
  exists out,
    add_two_signals (Nd2 c1 rs1) (Nd2 c2 rs2) = Ok out /\
    wf out /\ shape out = [length rs1; min c1 c2].
Proof.
  intros Hw1 Hw2 Hlen. unfold add_two_signals. cbn -[add2 Nat.min].
  set (m := min c1 c2).
  pose proof (wf_take_cols c1 m rs1 Hw1) as Hs1.
  pose proof (wf_take_cols c2 m rs2 Hw2) as Hs2.
  replace (min m c1) with m in * by lia. replace (min m c2) with m in * by lia.
  destruct (add2_same_shape m (take m <$> rs1) (take m <$> rs2) Hs1 Hs2)
    as (out & -> & Hlo & Hwo & _); [by rewrite !length_fmap|].
  exists (Nd2 m out). split; [done|]. split; [done|].
  cbn. by rewrite Hlo, length_fmap.
Qed.

(** X18: the noise and the music of a scene, each with at least one sample,
    spatialised by non-empty anechoic and cabin responses, can always be
    mixed: both come out with two channels, and the mix has two channels
    and the shorter of the two sample counts. *)
Theorem spatialise_then_mix (self : t) (hrir : gmap string string)
    (Nn Ns : nat) (noise_rows feed_rows : list (list A))
    (n03l n03r n04l n04r : string) (h03l h03r h04l h04r : list A) :
  (forall key, key ∈ ANECHOIC_HRTF.*1 ->
     exists h, hrir_values self !! key = Some h /\ h <> []) ->
  hrir !! "LSP03_CH1_Left" = Some n03l -> hrir !! "LSP03_CH1_Right" = Some n03r ->
  hrir !! "LSP04_CH1_Left" = Some n04l -> hrir !! "LSP04_CH1_Right" = Some n04r ->
  wavfile_read (path_join (car_hrtf_path self) (n03l +:+ ".wav")) = Ok h03l ->
  wavfile_read (path_join (car_hrtf_path self) (n03r +:+ ".wav")) = Ok h03r ->
  wavfile_read (path_join (car_hrtf_path self) (n04l +:+ ".wav")) = Ok h04l ->
  wavfile_read (path_join (car_hrtf_path self) (n04r +:+ ".wav")) = Ok h04r ->
  h03l <> [] -> h03r <> [] -> h04l <> [] -> h04r <> [] ->
  0 < Nn -> wf (Nd2 Nn noise_rows) -> 3 <= length noise_rows ->
  0 < Ns -> wf (Nd2 Ns feed_rows) -> 2 <= length feed_rows ->
  exists noise music mix,
    add_anechoic_hrtf self (Nd2 Nn noise_rows) = Ok noise /\
    add_car_hrtf self (Nd2 Ns feed_rows) hrir = Ok music /\
    add_two_signals music noise = Ok mix /\
    wf mix /\ shape mix = [2; min Ns Nn].
Proof.
  intros Hkeys K1 K2 K3 K4 R1 R2 R3 R4 E1 E2 E3 E4 HNn Hwn Hln HNs Hwf Hlf.
  destruct noise_rows as [|r0 [|r1 [|r2 rest]]]; cbn in Hln; try lia.
  apply Forall_cons in Hwn as [L0 [L1 [L2 _]%Forall_cons]%Forall_cons].
  destruct feed_rows as [|s0 [|s1 rest']]; cbn in Hlf; try lia.
  apply Forall_cons in Hwf as [M0 [M1 _]%Forall_cons].
  destruct (add_anechoic_hrtf_three_rows self Nn r0 r1 r2 rest Hkeys HNn L0 L1 L2)
    as (nl & nr & -> & Hnl & Hnr).
  destruct (add_car_hrtf_samples self hrir Ns s0 s1 rest'
              n03l n03r n04l n04r h03l h03r h04l h04r K1 K2 K3 K4 R1 R2 R3 R4
              E1 E2 E3 E4 HNs M0 M1)
    as (ml & mr & -> & Hml & Hmr & _).
  destruct (add_two_signals_same_channels_shape Ns Nn [ml; mr] [nl; nr])
    as (mix & Hmix & Hwm & Hsm); [repeat constructor; done.. | done |].
  by exists (Nd2 Nn [nl; nr]), (Nd2 Ns [ml; mr]), mix.
Qed.

End Pipeline.

(** Witness: a 3x4 noise buffer and a 2x4 feed on an instance holding the
    six anechoic responses, with the cabin files on disk. *)
Lemma spatialise_then_mix_witness :
  exists noise music mix,
    @CarSceneAcoustics.add_anechoic_hrtf Q _ Cabin.collaborators
      Cabin.instance Bench.noise_3x4 = Ok noise /\
    @CarSceneAcoustics.add_car_hrtf Q _ Cabin.collaborators
      Cabin.instance Cabin.feed_2x4 Cabin.hrir = Ok music /\
    CarSceneAcoustics.add_two_signals music noise = Ok mix /\
    wf mix /\ shape mix = [2; 4].
Proof.
  apply (@spatialise_then_mix Q _ Cabin.collaborators
           Cabin.instance Cabin.hrir 4 4
           [[1; 2; 3; 4]; [10; 20; 30; 40]; [100; 200; 300; 400]]%Q
           [[1; 2; 3; 4]; [10; 20; 30; 40]]%Q
           "HR13_E02_CH1_Left" "HR13_E02_CH1_Right"
           "HR14_E02_CH1_Left" "HR14_E02_CH1_Right"
           [1; 0]%Q [0; 1]%Q [0; 2]%Q [3; 0]%Q).
  - intros key Hkey. cbn in Hkey.
    repeat (apply elem_of_cons in Hkey as [->|Hkey];
            [eexists; split; [vm_compute; reflexivity | discriminate]|]).
    by apply elem_of_nil in Hkey.
  - vm_compute; reflexivity.
  - vm_compute; reflexivity.
  - vm_compute; reflexivity.
  - vm_compute; reflexivity.
  - vm_compute; reflexivity.
  - vm_compute; reflexivity.
  - vm_compute; reflexivity.
  - vm_compute; reflexivity.
  - discriminate.
  - discriminate.
  - discriminate.
  - discriminate.
  - lia.
  - repeat constructor.
  - simpl. lia.
  - lia.
  - repeat constructor.
  - simpl. lia.
Defined.
